(** * confutil: unique lookups and the settings upsert

    A shallow embedding of [confutil/confutil.py]: the cardinality-checked
    lookups [get_maybe_id] / [get_exactly_one_id], the settings routine
    [set_settings] with its per-application wrappers, and
    [create_consolidation_account].

    The Python functions receive a cursor [cr], a [registry], a [uid] and a
    [context].  The cursor is the state that is threaded through every call:
    it is the [Database] below.  [uid] and [context] are handed unchanged to
    every call of the record store and are opaque to these helpers, so the
    embedding leaves them out. *)

From Stdlib Require Import Ascii.
From stdpp Require Import gmap strings list fin_maps sorting pretty.

Open Scope string_scope.
Open Scope list_scope.
Open Scope nat_scope.
Open Scope stdpp_scope.

(** ** Python values *)

(** The values that the helpers put into dictionaries and search domains:
    [None], booleans, integers, strings, tuples and lists. *)
#[local] Unset Elimination Schemes.
Inductive Value : Type :=
  | VNone
  | VBool (b : bool)
  | VInt (z : Z)
  | VStr (s : string)
  | VTuple (vs : list Value)
  | VList (vs : list Value).
#[local] Set Elimination Schemes.

Definition Value_eq_dec : ∀ x y : Value, {x = y} + {x ≠ y}.
Proof.
  fix IH 1.
  assert (IHs : ∀ xs ys : list Value, {xs = ys} + {xs ≠ ys}).
  { fix IHl 1. intros [|x xs] [|y ys].
    - by left.
    - by right.
    - by right.
    - destruct (IH x y) as [->|Hxy]; [|right; congruence].
      destruct (IHl xs ys) as [->|Hxs]; [by left|right; congruence]. }
  intros [|b1|z1|s1|vs1|vs1] [|b2|z2|s2|vs2|vs2];
    try (right; discriminate); try (by left).
  - destruct (decide (b1 = b2)) as [->|]; [by left|right; congruence].
  - destruct (decide (z1 = z2)) as [->|]; [by left|right; congruence].
  - destruct (decide (s1 = s2)) as [->|]; [by left|right; congruence].
  - destruct (IHs vs1 vs2) as [->|]; [by left|right; congruence].
  - destruct (IHs vs1 vs2) as [->|]; [by left|right; congruence].
Defined.

#[global] Instance Value_eq_decision : EqDecision Value := Value_eq_dec.

(** A Python [dict] with string keys. *)
Abbreviation Dict := (gmap string Value).

(** Record identifiers are Python integers. *)
Abbreviation Id := Z.

(** [d.update(changes)]: the entries of [changes] win. *)
Definition dict_update (d changes : Dict) : Dict := changes ∪ d.

(** [list(d)]: the keys of a dictionary. *)
Definition dict_keys {V} (d : gmap string V) : list string := (map_to_list d).*1.

(** ** The record store

    The host framework's object-relational layer is not part of this
    repository; the helpers only call its [search], [create], [write],
    [execute], [default_get] and [fields_get]. *)

(** Modelled from the spec: a filter of the record store.  A search domain
    is a list of leaves [(field, '=', value)], all of which must hold; ['=']
    is the only operator the helpers use. *)
Inductive Leaf : Type := LeafEq (field : string) (value : Value).

Abbreviation Domain := (list Leaf).

#[global] Instance Leaf_eq_decision : EqDecision Leaf.
Proof. solve_decision. Defined.

(** Modelled from the spec: a model object as found in the registry, with
    its name ([_name]), the metadata of its declared fields and the defaults
    it declares. *)
Record Model : Type := {
  model_name : string;
  model_fields : gmap string Dict;
  model_defaults : Dict;
}.

(** A company record, of which the helpers read [company.id].  Where the
    source tests [if company], the argument is [None] or a company record,
    and a record is true. *)
Record Company : Type := { id : Id }.

(** Modelled from the spec: the calls of the record store that change or
    finalize records, in the order issued. *)
Inductive Call : Type :=
  | CCreate (model : string) (data : Dict) (new_id : Id)
  | CWrite (model : string) (ids : list Id) (changes : Dict)
  | CExecute (model : string) (ids : list Id).

(** Modelled from the spec: the external store behind the cursor, that is
    the rows of every model, keyed by model name and identifier, and the log
    of the calls made so far. *)
Record Database : Type := {
  tables : gmap (string * Id) Dict;
  log : list Call;
}.

(** The exceptions that can leave the helpers. *)
Inductive Exn : Type :=
  | KeyError (key : string)
  | IndexError
  | TooManyRecordsError (domain : Domain)
  | NoRecordsError (domain : Domain).

(** [TooManyRecordsError] and [NoRecordsError] derive from
    [WrongNumberOfRecordsError]. *)
Definition is_WrongNumberOfRecordsError (e : Exn) : bool :=
  match e with
  | TooManyRecordsError _ | NoRecordsError _ => true
  | KeyError _ | IndexError => false
  end.

Inductive Result (A : Type) : Type :=
  | Return (a : A)
  | Raise (e : Exn).
Arguments Return {A} a.
Arguments Raise {A} e.

(** A computation against the cursor: it returns or raises, and leaves a
    database behind in both cases. *)
Definition M (A : Type) : Type := Database → Result A * Database.

#[global] Instance M_ret : MRet M := λ A a cr, (Return a, cr).

#[global] Instance M_bind : MBind M := λ A B k c cr,
  match c cr with
  | (Return a, cr') => k a cr'
  | (Raise e, cr') => (Raise e, cr')
  end.

Definition raise {A} (e : Exn) : M A := λ cr, (Raise e, cr).

(** Modelled from the spec: the registry of the host framework, which maps
    a model name to the model object; [registry[name]] raises [KeyError]
    for a name that is not registered. *)
Definition registry_getitem (registry : gmap string Model) (name : string) : M Model :=
  match registry !! name with
  | Some model => mret model
  | None => raise (KeyError name)
  end.

(** Modelled from the spec: a filter is a set of equality constraints; the
    leaf [(f, '=', v)] holds on a row whose field [f] has the value [v]. *)
Definition leaf_holds (r : Dict) (l : Leaf) : bool :=
  match l with LeafEq f v => bool_decide (r !! f = Some v) end.

(** Modelled from the spec: a row satisfies a filter when every leaf
    holds; the empty filter is satisfied by every row. *)
Definition domain_holds (domain : Domain) (r : Dict) : bool :=
  forallb (leaf_holds r) domain.

(** Modelled from the spec: the rows of model [name] that satisfy
    [domain]. *)
Definition matching (name : string) (domain : Domain)
    (t : gmap (string * Id) Dict) : gmap (string * Id) Dict :=
  filter (λ kr, kr.1.1 = name ∧ domain_holds domain kr.2 = true) t.

(** Modelled from the spec: the identifiers of the matching rows, each
    once, in ascending order. *)
Definition search_ids (name : string) (domain : Domain)
    (t : gmap (string * Id) Dict) : list Id :=
  merge_sort Z.le (map_to_list (matching name domain t)).*1.*2.

(** Modelled from the spec: [search(filter) -> Collection<Identifier>] of
    the record store, an ordered sequence of the identifiers of the rows of
    the model that satisfy the filter, each once, here in ascending order.
    It reads and changes nothing. *)
Definition search (model : Model) (domain : Domain) : M (list Id) :=
  λ cr, (Return (search_ids (model_name model) domain (tables cr)), cr).

(** Modelled from the spec: the identifier the store gives to the next row
    of a model, one above the largest in use. *)
Definition next_id (name : string) (t : gmap (string * Id) Dict) : Id :=
  (1 + foldr Z.max 0 (search_ids name [] t))%Z.

(** Modelled from the spec: [create(data) -> Identifier] of the record
    store, which stores [data] as a new row under an identifier not in use
    and returns that identifier. *)
Definition create (model : Model) (data : Dict) : M Id :=
  λ cr,
    let new_id := next_id (model_name model) (tables cr) in
    (Return new_id,
     {| tables := <[(model_name model, new_id) := data]> (tables cr);
        log := log cr ++ [CCreate (model_name model) data new_id] |}).

(** Modelled from the spec: [write(identifiers, changes) -> Unit] of the
    record store, a partial update: on each row named, the fields of
    [changes] take their new values and the others keep theirs. *)
Definition write (model : Model) (ids : list Id) (changes : Dict) : M unit :=
  λ cr,
    (Return (),
     {| tables := foldr (λ i t, alter (λ r, dict_update r changes) (model_name model, i) t)
                        (tables cr) ids;
        log := log cr ++ [CWrite (model_name model) ids changes] |}).

(** Modelled from the spec: [execute(identifiers) -> Unit] of the record
    store, the finalize action of a settings record.  It is a call of its
    own, distinct from a write of field values: the rows stay as they are
    and the call is recorded. *)
Definition execute (model : Model) (ids : list Id) : M unit :=
  λ cr,
    (Return (),
     {| tables := tables cr;
        log := log cr ++ [CExecute (model_name model) ids] |}).

(** Modelled from the spec: [fields_get() -> mapping<FieldName,
    FieldMetadata>] of the record store. *)
Definition fields_get (model : Model) : M (gmap string Dict) :=
  mret (model_fields model).

(** Modelled from the spec: the declared defaults restricted to the fields
    asked for. *)
Definition defaults_for (model : Model) (field_names : list string) : Dict :=
  filter (λ kv, kv.1 ∈ field_names) (model_defaults model).

(** Modelled from the spec: [default_get(field_names) -> mapping<FieldName,
    Value>] of the record store, the declared defaults of the fields asked
    for, as a dictionary of the caller's own. *)
Definition default_get (model : Model) (field_names : list string) : M Dict :=
  mret (defaults_for model field_names).

(** ** The lookups *)

#[global] Instance nat_gt_decision (x y : nat) : Decision (x > y) := decide (y < x).

(** [get_maybe_id(model, cr, uid, domain, context=None)] *)
Definition get_maybe_id (model : Model) (domain : Domain) : M (option Id) :=
  ids ← search model domain;
  if bool_decide (length ids > 1) then
    raise (TooManyRecordsError domain)
  else if bool_decide (length ids = 0) then
    mret None
  else
    match ids !! 0 with
    | Some i => mret (Some i)
    | None => raise IndexError
    end.

(** [get_exactly_one_id(model, cr, uid, domain, context=None)] *)
Definition get_exactly_one_id (model : Model) (domain : Domain) : M Id :=
  retrieved_id ← get_maybe_id model domain;
  match retrieved_id with
  | None => raise (NoRecordsError domain)
  | Some i => mret i
  end.

(** ** Settings *)

(** [set_settings(cr, registry, uid, settings_model_name, changes,
    company=None, context=None)] *)
Definition set_settings (registry : gmap string Model) (settings_model_name : string)
    (changes : Dict) (company : option Company) : M unit :=
  settings_model ← registry_getitem registry settings_model_name;
  let domain :=
    match company with
    | Some c => [LeafEq "company_id" (VInt (id c))]
    | None => []
    end in
  settings_id ← get_maybe_id settings_model domain;
  settings_id ←
    match settings_id with
    | None =>
        fields ← fields_get settings_model;
        data ← default_get settings_model (dict_keys fields);
        let data := dict_update data changes in
        let data :=
          match company with
          | Some c => <["company_id" := VInt (id c)]> data
          | None => data
          end in
        create settings_model data
    | Some i =>
        write settings_model [i] changes;;
        mret i
    end;
  execute settings_model [settings_id].

(** [set_account_settings(cr, registry, uid, changes, company, context=None)] *)
Definition set_account_settings (registry : gmap string Model) (changes : Dict)
    (company : option Company) : M unit :=
  set_settings registry "account.config.settings" changes company.

(** [set_general_settings(cr, registry, uid, changes, context=None)] *)
Definition set_general_settings (registry : gmap string Model) (changes : Dict) : M unit :=
  set_settings registry "base.config.settings" changes None.

(** [set_purchasing_settings(cr, registry, uid, changes, context=None)] *)
Definition set_purchasing_settings (registry : gmap string Model) (changes : Dict) : M unit :=
  set_settings registry "purchase.config.settings" changes None.

(** [set_sale_settings(cr, registry, uid, changes, context=None)] *)
Definition set_sale_settings (registry : gmap string Model) (changes : Dict) : M unit :=
  set_settings registry "sale.config.settings" changes None.

(** [set_warehouse_settings(cr, registry, uid, changes, context=None)] *)
Definition set_warehouse_settings (registry : gmap string Model) (changes : Dict) : M unit :=
  set_settings registry "stock.config.settings" changes None.

(** ** Consolidation accounts *)

Definition ADD_EXISTING_ID : Z := 4.

(** The comprehension
    [[(ADD_EXISTING_ID, child_id, False) for child_id in children for child in children]]. *)
Definition child_consol_ids (children : list Id) : list Value :=
  child_id ← children;
  child ← children;
  [VTuple [VInt ADD_EXISTING_ID; VInt child_id; VBool false]].

(** [create_consolidation_account(cr, registry, uid, company, code, name,
    children, context=None)] *)
Definition create_consolidation_account (registry : gmap string Model)
    (company : Company) (code name : string) (children : list Id) : M Id :=
  account_type ← registry_getitem registry "account.account.type";
  account_type_view_id ←
    get_exactly_one_id account_type [LeafEq "name" (VStr "Root/View")];
  let data : Dict :=
    {[ "code" := VStr code;
       "name" := VStr name;
       "type" := VStr "consolidation";
       "user_type" := VInt account_type_view_id;
       "child_consol_ids" := VList (child_consol_ids children) ]} in
  account ← registry_getitem registry "account.account";
  create account data.

(** ** Names used in the statements *)

(** The domain [set_settings] searches with: the company's rows when a
    company is given, every row of the model otherwise. *)
Definition scope_domain (company : option Company) : Domain :=
  match company with
  | Some c => [LeafEq "company_id" (VInt (id c))]
  | None => []
  end.

(** The defaults a model declares for its declared fields, which is what
    [default_get] returns when asked for all of [fields_get]. *)
Definition declared_defaults (model : Model) : Dict :=
  defaults_for model (dict_keys (model_fields model)).

(** The dictionary [set_settings] hands to [create]. *)
Definition new_settings_data (model : Model) (changes : Dict)
    (company : option Company) : Dict :=
  match company with
  | Some c => <["company_id" := VInt (id c)]> (dict_update (declared_defaults model) changes)
  | None => dict_update (declared_defaults model) changes
  end.

(** The database a computation leaves behind. *)
Definition exec {A} (c : M A) (cr : Database) : Database := (c cr).2.

(** Calling [set_settings] twice leaves the rows that calling it once
    leaves. *)
Definition idempotent_at (registry : gmap string Model) (name : string)
    (changes : Dict) (company : option Company) (cr : Database) : Prop :=
  let once := exec (set_settings registry name changes company) cr in
  let twice := exec (set_settings registry name changes company) once in
  tables twice = tables once.

(** [changes] leaves the record in the scope of the call: it names no
    [company_id], or the company's own. *)
Definition scope_compatible (company : option Company) (changes : Dict) : Prop :=
  match company with
  | Some c => changes !! "company_id" = None ∨
              changes !! "company_id" = Some (VInt (id c))
  | None => True
  end.

(** ** Concrete stores *)

Module Scenario.
Definition account_tax : Model :=
  {| model_name := "account.tax";
     model_fields := {[ "description" := ∅; "company_id" := ∅ ]};
     model_defaults := ∅ |}.

Definition account_config_settings : Model :=
  {| model_name := "account.config.settings";
     model_fields := {[ "company_id" := ∅; "default_sale_tax" := ∅;
                        "default_purchase_tax" := ∅; "date_start" := ∅ ]};
     model_defaults := {[ "date_start" := VStr "2014-01-01" ]} |}.

Definition account_account_type : Model :=
  {| model_name := "account.account.type";
     model_fields := {[ "name" := ∅ ]};
     model_defaults := ∅ |}.

Definition account_account : Model :=
  {| model_name := "account.account";
     model_fields := {[ "code" := ∅; "name" := ∅; "type" := ∅;
                        "user_type" := ∅; "child_consol_ids" := ∅ ]};
     model_defaults := ∅ |}.

Definition registry : gmap string Model :=
  {[ "account.tax" := account_tax;
     "account.config.settings" := account_config_settings;
     "account.account.type" := account_account_type;
     "account.account" := account_account ]}.

Definition company7 : Company := {| id := 7 |}.
Definition company8 : Company := {| id := 8 |}.

(** Three taxes, two of which share the code PT1, and the account type
    Root/View; no settings record. *)
Definition fresh_install : Database :=
  {| tables :=
       {[ ("account.tax", 1%Z) := {[ "description" := VStr "ST1" ]};
          ("account.tax", 2%Z) := {[ "description" := VStr "PT1" ]};
          ("account.tax", 3%Z) := {[ "description" := VStr "PT1" ]};
          ("account.account.type", 5%Z) := {[ "name" := VStr "Root/View" ]} ]};
     log := [] |}.

(** One settings record for company 7 and one for company 8. *)
Definition configured : Database :=
  {| tables :=
       {[ ("account.config.settings", 1%Z) :=
            {[ "company_id" := VInt 7; "default_sale_tax" := VInt 10;
               "date_start" := VStr "2014-01-01" ]};
          ("account.config.settings", 2%Z) :=
            {[ "company_id" := VInt 8; "default_sale_tax" := VInt 20 ]} ]};
     log := [] |}.

(** Two settings records for company 7. *)
Definition corrupted : Database :=
  {| tables :=
       {[ ("account.config.settings", 1%Z) := {[ "company_id" := VInt 7 ]};
          ("account.config.settings", 2%Z) := {[ "company_id" := VInt 7 ]} ]};
     log := [] |}.

Definition sale_tax_42 : Dict := {[ "default_sale_tax" := VInt 42 ]}.

(** Changes that name another company than the one the call is for. *)
Definition move_to_8 : Dict := {[ "company_id" := VInt 8 ]}.
End Scenario.

(** ** The rest of the module

    The helpers below also fail with exceptions of the language itself:
    [context.copy()] on a context that is [None], the unpacking of a
    split identifier, and the type check of [Lookup.xmlid]. *)

Inductive Failure : Type :=
  | Raised (e : Exn)
  | AttributeError
  | TypeError
  | ValueError.

Inductive Outcome (A : Type) : Type :=
  | Done (a : A)
  | Failed (f : Failure).
Arguments Done {A} a.
Arguments Failed {A} f.

(** A computation against the cursor that may also fail with one of the
    exceptions above. *)
Definition Py (A : Type) : Type := Database → Outcome A * Database.

#[global] Instance Py_ret : MRet Py := λ A a cr, (Done a, cr).

#[global] Instance Py_bind : MBind Py := λ A B k c cr,
  match c cr with
  | (Done a, cr') => k a cr'
  | (Failed f, cr') => (Failed f, cr')
  end.

Definition fail {A} (f : Failure) : Py A := λ cr, (Failed f, cr).

(** A call of one of the helpers above from a computation in [Py]. *)
Definition call {A} (c : M A) : Py A := λ cr,
  match c cr with
  | (Return a, cr') => (Done a, cr')
  | (Raise e, cr') => (Failed (Raised e), cr')
  end.

(** [context.copy()], where [context] is a dictionary or [None]: [None]
    has no attribute [copy]. *)
Definition context_copy (context : option Dict) : Py Dict :=
  match context with
  | Some d => mret d
  | None => fail AttributeError
  end.

(** *** Strings *)

(** [sep in s] for a one-character [sep]. *)
Fixpoint contains (sep : ascii) (s : string) : bool :=
  match s with
  | EmptyString => false
  | String c s' => if decide (c = sep) then true else contains sep s'
  end.

(** The parts of [s.split(sep)]: the first part and the parts after it. *)
Fixpoint split_parts (sep : ascii) (s : string) : string * list string :=
  match s with
  | EmptyString => (EmptyString, [])
  | String c s' =>
      let '(p, ps) := split_parts sep s' in
      if decide (c = sep) then (EmptyString, p :: ps) else (String c p, ps)
  end.

(** [s.split(sep)] *)
Definition split (sep : ascii) (s : string) : list string :=
  let '(p, ps) := split_parts sep s in p :: ps.

(** [makeref(model_name, identifier)]: ['%s,%d' % (model_name, identifier)] *)
Definition makeref (model_name : string) (identifier : Z) : string :=
  model_name +:+ "," +:+ pretty identifier.

(** *** The Lookup class *)

Module Lookup.

(** An instance of [Lookup]: [_cr] is the threaded database and [_uid] is
    opaque, which leaves the registry and the context. *)
Record t : Type := {
  _registry : gmap string Model;
  _context : option Dict;
}.

(** [Lookup.model(self, model_name)] *)
Definition model (self : t) (model_name : string) : M Model :=
  registry_getitem (_registry self) model_name.

(** [Lookup._autoresolve_model(self, model)]: [model] is a name (a [str] or
    [unicode]) or a model object. *)
Definition _autoresolve_model (self : t) (m : string + Model) : M Model :=
  match m with
  | inl model_name => model self model_name
  | inr modobj => mret modobj
  end.

(** [Lookup.exactly_one_id(self, model, domain)] *)
Definition exactly_one_id (self : t) (m : string + Model) (domain : Domain) : Py Id :=
  modobj ← call (_autoresolve_model self m);
  context ← context_copy (_context self);
  call (get_exactly_one_id modobj domain).

(** [Lookup.maybe_id(self, model, domain)] *)
Definition maybe_id (self : t) (m : string + Model) (domain : Domain) : Py (option Id) :=
  modobj ← call (_autoresolve_model self m);
  context ← context_copy (_context self);
  call (get_maybe_id modobj domain).

(** [Lookup.tax_id_by_code(self, code)] *)
Definition tax_id_by_code (self : t) (code : string) : Py Id :=
  exactly_one_id self (inl "account.tax") [LeafEq "description" (VStr code)].

(** [Lookup.account_id(self, company, code)] *)
Definition account_id (self : t) (company : Company) (code : string) : Py Id :=
  exactly_one_id self (inl "account.account")
    [LeafEq "company_id" (VInt (id company)); LeafEq "code" (VStr code)].

Section xmlid.
(** [ir.model.data]'s [get_object(cr, uid, module, xmlid)] belongs to the
    host framework: it is a parameter here, as are the objects it returns
    and their [id]. *)
Context {Obj : Type}.
Variable get_object : Model → string → string → Py Obj.
Variable obj_id : Obj → Id.

(** [Lookup.xmlid(self, module_or_dotted_xmlid, xmlid=None)] *)
Definition xmlid (self : t) (module_or_dotted_xmlid : string) (xmlid : Value) : Py Obj :=
  IMD ← call (registry_getitem (_registry self) "ir.model.data");
  '(module, identifier) ←
    (if contains "."%char module_or_dotted_xmlid then
       match split "."%char module_or_dotted_xmlid with
       | [module; identifier] => mret (module, identifier)
       | _ => fail ValueError
       end
     else
       match xmlid with
       | VStr xmlid => mret (module_or_dotted_xmlid, xmlid)
       | _ => fail TypeError
       end);
  get_object IMD module identifier.

(** [Lookup.xmlid_id(self, module_or_dotted_xmlid, xmlid=None)] *)
Definition xmlid_id (self : t) (module_or_dotted_xmlid : string) (x : Value) : Py Id :=
  o ← xmlid self module_or_dotted_xmlid x;
  mret (obj_id o).
End xmlid.

End Lookup.

(** *** Taxes, currencies and accounts *)

(** [get_account_id(cr, registry, uid, company, code, context=None)] *)
Definition get_account_id (registry : gmap string Model) (company : Company)
    (code : string) : M Id :=
  account ← registry_getitem registry "account.account";
  get_exactly_one_id account
    [LeafEq "company_id" (VInt (id company)); LeafEq "code" (VStr code)].

(** [get_field_id(cr, registry, uid, model_name, field_name, context=None)] *)
Definition get_field_id (registry : gmap string Model) (model_name field_name : string)
    : M Id :=
  fields ← registry_getitem registry "ir.model.fields";
  get_exactly_one_id fields
    [LeafEq "model" (VStr model_name); LeafEq "name" (VStr field_name)].

(** [set_default_taxes(cr, registry, uid, company, sales_code, purchase_code,
    context=None)] *)
Definition set_default_taxes (registry : gmap string Model) (company : Company)
    (sales_code purchase_code : string) : M unit :=
  taxes_model ← registry_getitem registry "account.tax";
  sales_tax_id ←
    get_exactly_one_id taxes_model
      [LeafEq "company_id" (VInt (id company)); LeafEq "description" (VStr sales_code)];
  purchase_tax_id ←
    get_exactly_one_id taxes_model
      [LeafEq "company_id" (VInt (id company)); LeafEq "description" (VStr purchase_code)];
  set_account_settings registry
    {[ "default_sale_tax" := VInt sales_tax_id;
       "default_purchase_tax" := VInt purchase_tax_id ]}
    (Some company).

(** [enable_multi_currency(cr, registry, uid, company, gain_account_code,
    loss_account_code, context=None)].  The three [_logger.debug] calls
    write to the log of the process and are left out. *)
Definition enable_multi_currency (registry : gmap string Model) (company : Company)
    (gain_account_code loss_account_code : string) (context : option Dict) : Py unit :=
  accounts_model ← call (registry_getitem registry "account.account");
  context1 ← context_copy context;
  gain_account_id ←
    call (get_exactly_one_id accounts_model
            [LeafEq "company_id" (VInt (id company)); LeafEq "code" (VStr gain_account_code)]);
  context2 ← context_copy context;
  loss_account_id ←
    call (get_exactly_one_id accounts_model
            [LeafEq "company_id" (VInt (id company)); LeafEq "code" (VStr loss_account_code)]);
  call (set_account_settings registry
          {[ "group_multi_currency" := VBool true;
             "income_currency_exchange_account_id" := VInt gain_account_id;
             "expense_currency_exchange_account_id" := VInt loss_account_id ]}
          (Some company)).

(** [refgetter(cr, registry, uid)]: the [xmlid] method of a [Lookup] made
    without a context. *)
Definition refgetter {Obj : Type} (get_object : Model → string → string → Py Obj)
    (registry : gmap string Model) : string → Value → Py Obj :=
  Lookup.xmlid get_object {| Lookup._registry := registry; Lookup._context := None |}.

(** *** The default sale pricelist *)

Module Pricelist.
(** A pricelist record, of which the helpers read [pricelist.id]. *)
Record t : Type := { id : Id }.
End Pricelist.

(** The rows of [model] named by [ids] taken out of the tables. *)
Definition without_rows (name : string) (ids : list Id)
    (t : gmap (string * Id) Dict) : gmap (string * Id) Dict :=
  foldr (λ i t, delete (name, i) t) t ids.

Section pricelist.
(** [unlink(cr, uid, ids)] belongs to the host framework and is a
    parameter here. *)
Variable unlink : Model → list Id → M unit.

(** [set_default_customer_sale_pricelist(cr, registry, uid, company,
    pricelist, context=None)] *)
Definition set_default_customer_sale_pricelist (registry : gmap string Model)
    (company : Company) (pricelist : Pricelist.t) : M unit :=
  field_id ← get_field_id registry "res.partner" "property_product_pricelist";
  ir_property ← registry_getitem registry "ir.property";
  existing_ids ←
    search ir_property
      [LeafEq "company_id" (VInt (id company));
       LeafEq "fields_id" (VInt field_id);
       LeafEq "res_id" (VBool false)];
  (match existing_ids with
   | [] => mret ()
   | _ :: _ => unlink ir_property existing_ids
   end);;
  create ir_property
    {[ "company_id" := VInt (id company);
       "fields_id" := VInt field_id;
       "res_id" := VBool false;
       "type" := VStr "many2one";
       "value_reference" :=
         VStr (makeref "product.pricelist" (Pricelist.id pricelist)) ]};;
  mret ().
End pricelist.

(** A store's [unlink] that deletes the rows named and nothing else. *)
Definition unlink_rows (model : Model) (ids : list Id) : M unit :=
  λ cr,
    (Return (),
     {| tables := without_rows (model_name model) ids (tables cr);
        log := log cr |}).

(** Every model is registered under its own name. *)
Definition registry_named (registry : gmap string Model) : Prop :=
  ∀ name model, registry !! name = Some model → model_name model = name.

(** A second store: one company with its accounts, taxes and default
    pricelist, and a second company beside it. *)
Module Install.
Definition model_of (name : string) : Model :=
  {| model_name := name; model_fields := ∅; model_defaults := ∅ |}.

Definition registry : gmap string Model :=
  {[ "account.account" := model_of "account.account";
     "account.account.type" := model_of "account.account.type";
     "account.tax" := model_of "account.tax";
     "account.config.settings" := Scenario.account_config_settings;
     "ir.model.data" := model_of "ir.model.data";
     "ir.model.fields" := model_of "ir.model.fields";
     "ir.property" := model_of "ir.property" ]}.

Definition company1 : Company := {| id := 1 |}.
Definition company2 : Company := {| id := 2 |}.

Definition books : Database :=
  {| tables :=
       {[ ("account.account", 10%Z) := {[ "company_id" := VInt 1; "code" := VStr "4000" ]};
          ("account.account", 11%Z) := {[ "company_id" := VInt 1; "code" := VStr "5000" ]};
          ("account.account", 12%Z) := {[ "company_id" := VInt 2; "code" := VStr "4000" ]};
          ("account.account.type", 5%Z) := {[ "name" := VStr "Root/View" ]};
          ("account.tax", 1%Z) := {[ "company_id" := VInt 1; "description" := VStr "ST1" ]};
          ("account.tax", 2%Z) := {[ "company_id" := VInt 1; "description" := VStr "PT1" ]};
          ("ir.model.fields", 77%Z) :=
            {[ "model" := VStr "res.partner";
               "name" := VStr "property_product_pricelist" ]};
          ("ir.property", 3%Z) :=
            {[ "company_id" := VInt 1; "fields_id" := VInt 77; "res_id" := VBool false;
               "value_reference" := VStr "product.pricelist,1" ]};
          ("ir.property", 4%Z) :=
            {[ "company_id" := VInt 2; "fields_id" := VInt 77; "res_id" := VBool false;
               "value_reference" := VStr "product.pricelist,1" ]} ]};
     log := [] |}.

Definition with_context : Lookup.t :=
  {| Lookup._registry := registry; Lookup._context := Some ∅ |}.

Definition without_context : Lookup.t :=
  {| Lookup._registry := registry; Lookup._context := None |}.

(** A [get_object] that answers with the pair it is asked for. *)
Definition echo_object (IMD : Model) (module identifier : string) : Py (string * string) :=
  mret (module, identifier).
End Install.

(** * Properties *)

(** ** The record store *)

Section store.
Implicit Types (t : gmap (string * Id) Dict) (r : Dict) (i : Id).

Lemma elem_of_search_ids name domain t i :
  i ∈ search_ids name domain t ↔
  ∃ r, t !! (name, i) = Some r ∧ domain_holds domain r = true.
Proof.
  unfold search_ids, matching.
  rewrite merge_sort_Permutation, list_elem_of_fmap. split.
  - intros ([n j] & -> & Hin).
    apply list_elem_of_fmap in Hin as ([k r] & Hk & Hin).
    simpl in Hk. subst k.
    apply elem_of_map_to_list, map_lookup_filter_Some in Hin.
    destruct Hin as (Hr & Hn & Hd). simpl in *. subst n. eauto.
  - intros (r & Hr & Hd). exists (name, i). split; [done|].
    apply list_elem_of_fmap. exists ((name, i), r). split; [done|].
    apply elem_of_map_to_list, map_lookup_filter_Some. done.
Qed.

Lemma NoDup_search_ids name domain t : NoDup (search_ids name domain t).
Proof.
  unfold search_ids. rewrite merge_sort_Permutation.
  apply NoDup_fmap_2_strong; [|apply NoDup_fst_map_to_list].
  intros [n1 i1] [n2 i2] H1 H2 Heq. simpl in Heq. subst i2.
  apply list_elem_of_fmap in H1 as ([k1 r1] & Hk1 & H1).
  apply list_elem_of_fmap in H2 as ([k2 r2] & Hk2 & H2).
  simpl in Hk1, Hk2. subst k1 k2.
  apply elem_of_map_to_list, map_lookup_filter_Some in H1 as (_ & Hn1 & _).
  apply elem_of_map_to_list, map_lookup_filter_Some in H2 as (_ & Hn2 & _).
  simpl in *. congruence.
Qed.

Lemma NoDup_at_most_one (l : list Id) i :
  NoDup l → (∀ j, j ∈ l → j = i) → l = [] ∨ l = [i].
Proof.
  intros Hnd Hall. destruct l as [|a [|b l']]; [by left| |].
  - right. f_equal. apply Hall. by left.
  - exfalso. assert (a = i) as -> by (apply Hall; by left).
    assert (b = i) as -> by (apply Hall; right; by left).
    apply NoDup_cons in Hnd as [Hnot _]. apply Hnot. by left.
Qed.

Lemma search_ids_nil name domain t :
  (∀ i r, t !! (name, i) = Some r → domain_holds domain r = false) →
  search_ids name domain t = [].
Proof.
  intros Hno. destruct (search_ids name domain t) as [|a l] eqn:E; [done|].
  assert (a ∈ search_ids name domain t) as Ha by (rewrite E; by left).
  apply elem_of_search_ids in Ha as (r & Hr & Hd).
  rewrite (Hno _ _ Hr) in Hd. done.
Qed.

Lemma search_ids_singleton name domain t i :
  (∀ j, j ∈ search_ids name domain t ↔ j = i) →
  search_ids name domain t = [i].
Proof.
  intros Hiff.
  destruct (NoDup_at_most_one (search_ids name domain t) i
              (NoDup_search_ids name domain t)) as [E|E]; [|  |done].
  - intros j. apply Hiff.
  - assert (i ∈ search_ids name domain t) as Hi by by apply Hiff.
    rewrite E in Hi. by apply elem_of_nil in Hi.
Qed.

Lemma search_ids_one_row name domain t i :
  search_ids name domain t = [i] →
  ∃ r, t !! (name, i) = Some r ∧ domain_holds domain r = true.
Proof. intros E. apply elem_of_search_ids. rewrite E. by left. Qed.

Lemma elem_of_search_ids_insert name domain t k r j :
  j ∈ search_ids name domain (<[k := r]> t) ↔
  (k = (name, j) ∧ domain_holds domain r = true) ∨
  (k ≠ (name, j) ∧ j ∈ search_ids name domain t).
Proof.
  rewrite !elem_of_search_ids. destruct (decide (k = (name, j))) as [->|Hne].
  - rewrite lookup_insert_eq. split.
    + intros (r' & [= <-] & Hd). by left.
    + intros [[_ Hd]|[Hne _]]; [eauto|done].
  - rewrite lookup_insert_ne by done. split.
    + intros H. by right.
    + intros [[Hk _]|[_ H]]; done.
Qed.

Lemma dict_update_lookup (d changes : Dict) (f : string) :
  dict_update d changes !! f =
  match changes !! f with Some v => Some v | None => d !! f end.
Proof.
  unfold dict_update. destruct (changes !! f) as [v|] eqn:E.
  - by apply lookup_union_Some_l.
  - by apply lookup_union_r.
Qed.

Lemma declared_defaults_lookup model (f : string) :
  declared_defaults model !! f =
  match model_fields model !! f with
  | Some _ => model_defaults model !! f
  | None => None
  end.
Proof.
  unfold declared_defaults, defaults_for, dict_keys.
  destruct (model_fields model !! f) as [meta|] eqn:E.
  - destruct (model_defaults model !! f) as [v|] eqn:Ev.
    + apply map_lookup_filter_Some. split; [done|]. simpl.
      apply list_elem_of_fmap. exists (f, meta). split; [done|].
      by apply elem_of_map_to_list.
    + apply map_lookup_filter_None. by left.
  - apply map_lookup_filter_None. right. intros v _. simpl.
    intros Hin. apply list_elem_of_fmap in Hin as ([f' meta] & -> & Hin).
    apply elem_of_map_to_list in Hin. simpl in E. congruence.
Qed.

Lemma scope_domain_holds company r :
  domain_holds (scope_domain company) r = true ↔
  match company with
  | Some c => r !! "company_id" = Some (VInt (id c))
  | None => True
  end.
Proof.
  destruct company as [c|]; simpl; [|done].
  by rewrite andb_true_r, bool_decide_eq_true.
Qed.

Lemma new_settings_data_in_scope model changes company :
  domain_holds (scope_domain company) (new_settings_data model changes company) = true.
Proof.
  apply scope_domain_holds. destruct company as [c|]; [|done].
  apply lookup_insert_eq.
Qed.

(** Once the new row is stored, it is the scope's only row. *)
Lemma search_ids_after_create name domain t r :
  search_ids name domain t = [] →
  domain_holds domain r = true →
  search_ids name domain (<[(name, next_id name t) := r]> t) = [next_id name t].
Proof.
  intros Hnil Hd. apply search_ids_singleton. intros j.
  rewrite elem_of_search_ids_insert, Hnil. split.
  - intros [[[= ->] _]|[_ Hin]]; [done|by apply elem_of_nil in Hin].
  - intros ->. by left.
Qed.

(** A write to the scope's only row leaves the scope with no other row. *)
Lemma search_ids_after_write name domain t i r :
  search_ids name domain t = [i] →
  (∀ j, j ∈ search_ids name domain (<[(name, i) := r]> t) → j = i) ∧
  length (search_ids name domain (<[(name, i) := r]> t)) ≤ 1.
Proof.
  intros Hone.
  assert (∀ j, j ∈ search_ids name domain (<[(name, i) := r]> t) → j = i) as Hall.
  { intros j. rewrite elem_of_search_ids_insert, Hone.
    intros [[[= ->] _]|[_ Hin]]; [done|]. by apply list_elem_of_singleton in Hin. }
  split; [done|].
  destruct (NoDup_at_most_one _ i (NoDup_search_ids name domain (<[(name, i) := r]> t)) Hall)
    as [->| ->]; simpl; lia.
Qed.

Lemma search_ids_after_write_in_scope name domain t i r :
  search_ids name domain t = [i] →
  domain_holds domain r = true →
  search_ids name domain (<[(name, i) := r]> t) = [i].
Proof.
  intros Hone Hd. apply search_ids_singleton. intros j. split.
  - by apply search_ids_after_write.
  - intros ->. apply elem_of_search_ids_insert. by left.
Qed.

Lemma foldr_max_ge (l : list Id) i : i ∈ l → (i ≤ foldr Z.max 0 l)%Z.
Proof.
  induction l as [|a l IH]; intros Hin; [by apply elem_of_nil in Hin|].
  apply elem_of_cons in Hin as [->|Hin]; simpl; [lia|].
  specialize (IH Hin). lia.
Qed.

(** The identifier given to a new row is not in use. *)
Lemma next_id_fresh name t : t !! (name, next_id name t) = None.
Proof.
  destruct (t !! (name, next_id name t)) as [r|] eqn:E; [|done].
  assert (next_id name t ∈ search_ids name [] t) as Hin.
  { apply elem_of_search_ids. eauto. }
  apply foldr_max_ge in Hin. unfold next_id in Hin at 1. lia.
Qed.
End store.

(** ** How the helpers run *)

Section runs.
Implicit Types (cr : Database) (model : Model) (domain : Domain).

Lemma get_maybe_id_run model domain cr :
  get_maybe_id model domain cr =
  (match search_ids (model_name model) domain (tables cr) with
   | [] => Return None
   | [i] => Return (Some i)
   | _ :: _ :: _ => Raise (TooManyRecordsError domain)
   end, cr).
Proof.
  unfold get_maybe_id, mbind, M_bind, search.
  by destruct (search_ids _ _ _) as [|a [|b l]].
Qed.

Lemma get_exactly_one_id_run model domain cr :
  get_exactly_one_id model domain cr =
  (match search_ids (model_name model) domain (tables cr) with
   | [] => Raise (NoRecordsError domain)
   | [i] => Return i
   | _ :: _ :: _ => Raise (TooManyRecordsError domain)
   end, cr).
Proof.
  unfold get_exactly_one_id, mbind, M_bind. rewrite get_maybe_id_run.
  by destruct (search_ids _ _ _) as [|a [|b l]].
Qed.

Lemma alter_present {V} (t : gmap (string * Id) V) k (f : V → V) v :
  t !! k = Some v → alter f k t = <[k := f v]> t.
Proof.
  intros Hk. apply map_eq. intros k'. destruct (decide (k = k')) as [<-|Hne].
  - by rewrite lookup_alter_eq, lookup_insert_eq, Hk.
  - by rewrite lookup_alter_ne, lookup_insert_ne.
Qed.

Lemma set_settings_run registry name changes company cr :
  set_settings registry name changes company cr =
  match registry !! name with
  | None => (Raise (KeyError name), cr)
  | Some model =>
      let mn := model_name model in
      match search_ids mn (scope_domain company) (tables cr) with
      | [] =>
          let new_id := next_id mn (tables cr) in
          let data := new_settings_data model changes company in
          (Return (),
           {| tables := <[(mn, new_id) := data]> (tables cr);
              log := log cr ++ [CCreate mn data new_id; CExecute mn [new_id]] |})
      | [i] =>
          (Return (),
           {| tables := alter (λ r, dict_update r changes) (mn, i) (tables cr);
              log := log cr ++ [CWrite mn [i] changes; CExecute mn [i]] |})
      | _ :: _ :: _ => (Raise (TooManyRecordsError (scope_domain company)), cr)
      end
  end.
Proof.
  unfold set_settings, registry_getitem.
  destruct (registry !! name) as [model|]; [|done].
  unfold mbind at 1, M_bind at 1. unfold mret at 1, M_ret at 1.
  unfold mbind at 1, M_bind at 1.
  fold (scope_domain company). rewrite get_maybe_id_run.
  destruct (search_ids _ _ _) as [|i [|j l]]; [| |done].
  - unfold mbind, M_bind, fields_get, default_get, mret, M_ret, create, execute.
    simpl. fold (declared_defaults model).
    rewrite <- app_assoc. by destruct company.
  - unfold mbind, M_bind, write, mret, M_ret, execute. simpl.
    by rewrite <- app_assoc.
Qed.
End runs.

(** ** UniqueLookup *)

(** C1: when the search returns exactly one identifier, [get_maybe_id] and
    [get_exactly_one_id] both return that identifier; neither raises and
    neither changes the database. *)
Theorem unique_lookup_one model domain cr i :
  search model domain cr = (Return [i], cr) →
  get_maybe_id model domain cr = (Return (Some i), cr) ∧
  get_exactly_one_id model domain cr = (Return i, cr).
Proof.
  intros [= Hs]. rewrite get_maybe_id_run, get_exactly_one_id_run, Hs. done.
Qed.

(** C2: when the search returns no identifier, [get_maybe_id] returns
    [None] and [get_exactly_one_id] raises [NoRecordsError]. *)
Theorem unique_lookup_none model domain cr :
  search model domain cr = (Return [], cr) →
  get_maybe_id model domain cr = (Return None, cr) ∧
  get_exactly_one_id model domain cr = (Raise (NoRecordsError domain), cr).
Proof.
  intros [= Hs]. rewrite get_maybe_id_run, get_exactly_one_id_run, Hs. done.
Qed.

(** C3: when the search returns two or more identifiers, [get_maybe_id] and
    [get_exactly_one_id] both raise [TooManyRecordsError]; neither returns
    an identifier. *)
Theorem unique_lookup_many model domain cr ids :
  search model domain cr = (Return ids, cr) →
  length ids ≥ 2 →
  get_maybe_id model domain cr = (Raise (TooManyRecordsError domain), cr) ∧
  get_exactly_one_id model domain cr = (Raise (TooManyRecordsError domain), cr).
Proof.
  intros [= Hs] Hlen. rewrite get_maybe_id_run, get_exactly_one_id_run, Hs.
  destruct ids as [|a [|b l]]; simpl in Hlen; [lia|lia|done].
Qed.

Lemma unique_lookup_one_witness :
  get_maybe_id Scenario.account_tax [LeafEq "description" (VStr "ST1")]
    Scenario.fresh_install = (Return (Some 1%Z), Scenario.fresh_install) ∧
  get_exactly_one_id Scenario.account_tax [LeafEq "description" (VStr "ST1")]
    Scenario.fresh_install = (Return 1%Z, Scenario.fresh_install).
Proof. apply unique_lookup_one. vm_compute. reflexivity. Defined.

Lemma unique_lookup_none_witness :
  get_maybe_id Scenario.account_tax [LeafEq "description" (VStr "ST9")]
    Scenario.fresh_install = (Return None, Scenario.fresh_install) ∧
  get_exactly_one_id Scenario.account_tax [LeafEq "description" (VStr "ST9")]
    Scenario.fresh_install =
    (Raise (NoRecordsError [LeafEq "description" (VStr "ST9")]), Scenario.fresh_install).
Proof. apply unique_lookup_none. vm_compute. reflexivity. Defined.

Lemma unique_lookup_many_witness :
  get_maybe_id Scenario.account_tax [LeafEq "description" (VStr "PT1")]
    Scenario.fresh_install =
    (Raise (TooManyRecordsError [LeafEq "description" (VStr "PT1")]), Scenario.fresh_install) ∧
  get_exactly_one_id Scenario.account_tax [LeafEq "description" (VStr "PT1")]
    Scenario.fresh_install =
    (Raise (TooManyRecordsError [LeafEq "description" (VStr "PT1")]), Scenario.fresh_install).
Proof.
  apply (unique_lookup_many _ _ _ [2; 3]%Z).
  - vm_compute. reflexivity.
  - simpl. lia.
Defined.

(** The tax with code ST1 is found while it is the only one; once a second
    tax with that code is stored, the same lookup raises. *)
Example tax_lookup_then_duplicate :
  get_exactly_one_id Scenario.account_tax [LeafEq "description" (VStr "ST1")]
    Scenario.fresh_install = (Return 1%Z, Scenario.fresh_install) ∧
  (get_exactly_one_id Scenario.account_tax [LeafEq "description" (VStr "ST1")]
     (exec (create Scenario.account_tax {[ "description" := VStr "ST1" ]})
           Scenario.fresh_install)).1 =
  Raise (TooManyRecordsError [LeafEq "description" (VStr "ST1")]).
Proof. split; vm_compute; reflexivity. Qed.

(** ** SettingsUpserter *)

(** C4: with no settings record for the scope, [set_settings] creates one
    new record, under an identifier that was not in use, whose fields are
    the model's declared defaults overlaid by [changes] ([changes] win) and
    whose [company_id] is the company's when a company is given; with one
    record for the scope, it writes the fields named in [changes] to that
    record, every other field of the record keeps its value and no record
    is created. *)
Theorem set_settings_upsert registry name model changes company cr :
  registry !! name = Some model →
  (search model (scope_domain company) cr = (Return [], cr) →
   ∃ new_id data,
     set_settings registry name changes company cr =
       (Return (),
        {| tables := <[(model_name model, new_id) := data]> (tables cr);
           log := log cr ++ [CCreate (model_name model) data new_id;
                             CExecute (model_name model) [new_id]] |}) ∧
     tables cr !! (model_name model, new_id) = None ∧
     (∀ c, company = Some c → data !! "company_id" = Some (VInt (id c))) ∧
     (∀ f, company = None ∨ f ≠ "company_id" →
        data !! f = match changes !! f with
                    | Some v => Some v
                    | None => declared_defaults model !! f
                    end)) ∧
  (∀ i, search model (scope_domain company) cr = (Return [i], cr) →
   ∃ r r',
     tables cr !! (model_name model, i) = Some r ∧
     set_settings registry name changes company cr =
       (Return (),
        {| tables := <[(model_name model, i) := r']> (tables cr);
           log := log cr ++ [CWrite (model_name model) [i] changes;
                             CExecute (model_name model) [i]] |}) ∧
     (∀ f v, changes !! f = Some v → r' !! f = Some v) ∧
     (∀ f, changes !! f = None → r' !! f = r !! f) ∧
     dom (<[(model_name model, i) := r']> (tables cr)) = dom (tables cr)).
Proof.
  intros Hreg. split.
  - intros [= Hs]. rewrite set_settings_run, Hreg. simpl. rewrite Hs.
    eexists _, _. split; [done|]. split; [apply next_id_fresh|]. split.
    + intros c ->. simpl. apply lookup_insert_eq.
    + intros f Hf. unfold new_settings_data.
      destruct company as [c|].
      * destruct Hf as [|Hf]; [done|].
        rewrite lookup_insert_ne by done. apply dict_update_lookup.
      * apply dict_update_lookup.
  - intros i [= Hs]. rewrite set_settings_run, Hreg. simpl. rewrite Hs.
    destruct (search_ids_one_row _ _ _ _ Hs) as (r & Hr & _).
    exists r, (dict_update r changes). split; [done|].
    rewrite (alter_present _ _ _ _ Hr). split; [done|]. split; [|split].
    + intros f v Hf. by rewrite dict_update_lookup, Hf.
    + intros f Hf. by rewrite dict_update_lookup, Hf.
    + apply dom_insert_lookup_L. eauto.
Qed.

Lemma set_settings_upsert_witness :
  (∃ new_id data,
     set_settings Scenario.registry "account.config.settings" Scenario.sale_tax_42
       (Some Scenario.company7) Scenario.fresh_install =
       (Return (),
        {| tables := <[("account.config.settings", new_id) := data]>
                       (tables Scenario.fresh_install);
           log := [CCreate "account.config.settings" data new_id;
                   CExecute "account.config.settings" [new_id]] |}) ∧
     data !! "company_id" = Some (VInt 7) ∧
     data !! "default_sale_tax" = Some (VInt 42) ∧
     data !! "date_start" = Some (VStr "2014-01-01")) ∧
  (∃ r',
     set_settings Scenario.registry "account.config.settings" Scenario.sale_tax_42
       (Some Scenario.company7) Scenario.configured =
       (Return (),
        {| tables := <[("account.config.settings", 1%Z) := r']>
                       (tables Scenario.configured);
           log := [CWrite "account.config.settings" [1%Z] Scenario.sale_tax_42;
                   CExecute "account.config.settings" [1%Z]] |}) ∧
     r' !! "default_sale_tax" = Some (VInt 42) ∧
     r' !! "date_start" = Some (VStr "2014-01-01")).
Proof.
  split.
  - destruct (set_settings_upsert Scenario.registry "account.config.settings"
                Scenario.account_config_settings Scenario.sale_tax_42
                (Some Scenario.company7) Scenario.fresh_install eq_refl)
      as [Hcreate _].
    destruct Hcreate as (new_id & data & Hrun & _ & Hc & Hf);
      [vm_compute; reflexivity|].
    exists new_id, data. split; [exact Hrun|].
    split; [exact (Hc Scenario.company7 eq_refl)|].
    split; (rewrite Hf by (by right)); vm_compute; reflexivity.
  - destruct (set_settings_upsert Scenario.registry "account.config.settings"
                Scenario.account_config_settings Scenario.sale_tax_42
                (Some Scenario.company7) Scenario.configured eq_refl)
      as [_ Hwrite].
    destruct (Hwrite 1%Z) as (r & r' & Hr & Hrun & Hin & Hout & _);
      [vm_compute; reflexivity|].
    exists r'. split; [exact Hrun|]. split; [by apply Hin|].
    rewrite Hout by (vm_compute; reflexivity).
    vm_compute in Hr. injection Hr as <-. vm_compute. reflexivity.
Defined.

(** C5: with two or more settings records for the scope, [set_settings]
    raises the [TooManyRecordsError] of [get_maybe_id] as it is and leaves
    the database, rows and log of calls, as it found it; with one record for
    the scope it creates none: the call log gains a write and an execute, no
    row is added, and the scope still has at most one record. *)
Theorem set_settings_too_many registry name model changes company cr :
  registry !! name = Some model →
  (∀ ids, search model (scope_domain company) cr = (Return ids, cr) →
     length ids ≥ 2 →
     get_maybe_id model (scope_domain company) cr =
       (Raise (TooManyRecordsError (scope_domain company)), cr) ∧
     set_settings registry name changes company cr =
       (Raise (TooManyRecordsError (scope_domain company)), cr)) ∧
  (∀ i, search model (scope_domain company) cr = (Return [i], cr) →
     let cr' := exec (set_settings registry name changes company) cr in
     log cr' = log cr ++ [CWrite (model_name model) [i] changes;
                          CExecute (model_name model) [i]] ∧
     dom (tables cr') = dom (tables cr) ∧
     length (search_ids (model_name model) (scope_domain company) (tables cr')) ≤ 1).
Proof.
  intros Hreg. split.
  - intros ids [= Hs] Hlen. rewrite get_maybe_id_run, set_settings_run, Hreg.
    simpl. rewrite Hs. destruct ids as [|a [|b l]]; simpl in Hlen; [lia|lia|done].
  - intros i [= Hs]. unfold exec. rewrite set_settings_run, Hreg. simpl.
    rewrite Hs. simpl.
    destruct (search_ids_one_row _ _ _ _ Hs) as (r & Hr & _).
    rewrite (alter_present _ _ _ _ Hr). split; [done|]. split.
    + apply dom_insert_lookup_L. eauto.
    + by apply search_ids_after_write.
Qed.

Lemma set_settings_too_many_witness :
  set_settings Scenario.registry "account.config.settings" Scenario.sale_tax_42
    (Some Scenario.company7) Scenario.corrupted =
    (Raise (TooManyRecordsError [LeafEq "company_id" (VInt 7)]), Scenario.corrupted) ∧
  dom (tables (exec (set_settings Scenario.registry "account.config.settings"
                       Scenario.move_to_8 (Some Scenario.company7))
                    Scenario.configured)) = dom (tables Scenario.configured).
Proof.
  split.
  - destruct (set_settings_too_many Scenario.registry "account.config.settings"
                Scenario.account_config_settings Scenario.sale_tax_42
                (Some Scenario.company7) Scenario.corrupted eq_refl)
      as [Hmany _].
    apply (Hmany [1; 2]%Z).
    + vm_compute. reflexivity.
    + simpl. lia.
  - destruct (set_settings_too_many Scenario.registry "account.config.settings"
                Scenario.account_config_settings Scenario.move_to_8
                (Some Scenario.company7) Scenario.configured eq_refl)
      as [_ Hone].
    apply (Hone 1%Z). vm_compute. reflexivity.
Defined.

(** [set_settings] returns exactly when the model is registered and the
    scope has at most one record. *)
Lemma set_settings_returns registry name changes company cr :
  (∃ cr', set_settings registry name changes company cr = (Return (), cr')) ↔
  (∃ model, registry !! name = Some model ∧
     length (search_ids (model_name model) (scope_domain company) (tables cr)) ≤ 1).
Proof.
  rewrite set_settings_run. destruct (registry !! name) as [model|]; simpl.
  - destruct (search_ids _ _ _) as [|i [|j l]] eqn:E; simpl.
    + split; [intros _; exists model; rewrite E; simpl; split; [done|lia]|].
      intros _; by eexists.
    + split; [intros _; exists model; rewrite E; simpl; split; [done|lia]|].
      intros _; by eexists.
    + split; [intros [cr' [=]]|].
      intros (m & [= <-] & Hlen). rewrite E in Hlen. simpl in Hlen. lia.
  - split; [intros [cr' [=]]|intros (m & [=] & _)].
Qed.

(** C8: every run of [set_settings] that returns has made exactly two calls
    on the settings record, the create (no record for the scope) or the
    write (one record for the scope) first and the execute of that same
    record last; no run returns after a create or a write without the
    execute. *)
Theorem set_settings_finalizes registry name changes company cr cr' :
  set_settings registry name changes company cr = (Return (), cr') →
  ∃ model i,
    registry !! name = Some model ∧
    ((search_ids (model_name model) (scope_domain company) (tables cr) = [] ∧
      ∃ data, log cr' = log cr ++ [CCreate (model_name model) data i;
                                   CExecute (model_name model) [i]]) ∨
     (search_ids (model_name model) (scope_domain company) (tables cr) = [i] ∧
      log cr' = log cr ++ [CWrite (model_name model) [i] changes;
                           CExecute (model_name model) [i]])).
Proof.
  rewrite set_settings_run. destruct (registry !! name) as [model|]; [|intros [=]].
  simpl. destruct (search_ids _ _ _) as [|i [|j l]] eqn:E; [| |intros [=]].
  - intros [= <-]. exists model, (next_id (model_name model) (tables cr)).
    split; [done|]. left. split; [exact E|]. by eexists.
  - intros [= <-]. exists model, i. split; [done|]. right. by split.
Qed.

Lemma set_settings_finalizes_witness :
  ∃ model i,
    Scenario.registry !! "account.config.settings" = Some model ∧
    ((search_ids (model_name model) (scope_domain (Some Scenario.company7))
        (tables Scenario.configured) = [] ∧
      ∃ data,
        log (exec (set_settings Scenario.registry "account.config.settings"
                     Scenario.sale_tax_42 (Some Scenario.company7))
                  Scenario.configured) =
        log Scenario.configured ++ [CCreate (model_name model) data i;
                                    CExecute (model_name model) [i]]) ∨
     (search_ids (model_name model) (scope_domain (Some Scenario.company7))
        (tables Scenario.configured) = [i] ∧
      log (exec (set_settings Scenario.registry "account.config.settings"
                   Scenario.sale_tax_42 (Some Scenario.company7))
                Scenario.configured) =
      log Scenario.configured ++ [CWrite (model_name model) [i] Scenario.sale_tax_42;
                                  CExecute (model_name model) [i]])).
Proof.
  apply (set_settings_finalizes Scenario.registry "account.config.settings"
           Scenario.sale_tax_42 (Some Scenario.company7) Scenario.configured).
  vm_compute. reflexivity.
Defined.

(** C10: in the create branch with a company given, the record created has
    [company_id = company.id] whatever [changes] holds: the assignment comes
    after the overlay of [changes] and replaces a [company_id] that
    [changes] supplies. *)
Theorem set_settings_create_company_wins registry name model changes c cr :
  registry !! name = Some model →
  search model (scope_domain (Some c)) cr = (Return [], cr) →
  ∃ new_id data,
    set_settings registry name changes (Some c) cr =
      (Return (),
       {| tables := <[(model_name model, new_id) := data]> (tables cr);
          log := log cr ++ [CCreate (model_name model) data new_id;
                            CExecute (model_name model) [new_id]] |}) ∧
    data = <["company_id" := VInt (id c)]> (dict_update (declared_defaults model) changes) ∧
    data !! "company_id" = Some (VInt (id c)) ∧
    tables (exec (set_settings registry name changes (Some c)) cr)
      !! (model_name model, new_id) = Some data.
Proof.
  intros Hreg [= Hs]. unfold exec. rewrite set_settings_run, Hreg. simpl.
  rewrite Hs. eexists _, _. split; [done|]. split; [done|].
  split; apply lookup_insert_eq.
Qed.

Lemma set_settings_create_company_wins_witness :
  Scenario.move_to_8 !! "company_id" = Some (VInt 8) ∧
  ∃ new_id data,
    set_settings Scenario.registry "account.config.settings" Scenario.move_to_8
      (Some Scenario.company7) Scenario.fresh_install =
      (Return (),
       {| tables := <[("account.config.settings", new_id) := data]>
                      (tables Scenario.fresh_install);
          log := [CCreate "account.config.settings" data new_id;
                  CExecute "account.config.settings" [new_id]] |}) ∧
    data !! "company_id" = Some (VInt 7).
Proof.
  split; [vm_compute; reflexivity|].
  destruct (set_settings_create_company_wins Scenario.registry
              "account.config.settings" Scenario.account_config_settings
              Scenario.move_to_8 Scenario.company7 Scenario.fresh_install eq_refl)
    as (new_id & data & Hrun & _ & Hc & _); [vm_compute; reflexivity|].
  exists new_id, data. split; [exact Hrun|exact Hc].
Defined.

(** C7, as amended: a call of [set_settings] for a company A changes at
    most one row of the store; that row belongs to the settings model and is
    either new (there was no record for A) or the one settings record found
    for A; every row of another company B, like every other row of the
    store, stays as it was. *)
Theorem set_settings_frame registry name changes a b cr :
  id a ≠ id b →
  let cr' := exec (set_settings registry name changes (Some a)) cr in
  (∀ k r, tables cr !! k = Some r →
     r !! "company_id" = Some (VInt (id b)) → tables cr' !! k = Some r) ∧
  (∀ k r, tables cr !! k = Some r →
     r !! "company_id" ≠ Some (VInt (id a)) → tables cr' !! k = Some r) ∧
  (∀ k, tables cr' !! k ≠ tables cr !! k →
     ∃ model i,
       registry !! name = Some model ∧
       k = (model_name model, i) ∧
       ((search_ids (model_name model) (scope_domain (Some a)) (tables cr) = [] ∧
         tables cr !! k = None) ∨
        search_ids (model_name model) (scope_domain (Some a)) (tables cr) = [i])) ∧
  (∀ k1 k2, tables cr' !! k1 ≠ tables cr !! k1 →
            tables cr' !! k2 ≠ tables cr !! k2 → k1 = k2).
Proof.
  intros Hab cr'.
  assert (∃ k0,
            (∀ k, tables cr' !! k ≠ tables cr !! k → k = k0) ∧
            (∀ k, tables cr' !! k ≠ tables cr !! k →
               ∃ model i,
                 registry !! name = Some model ∧
                 k = (model_name model, i) ∧
                 ((search_ids (model_name model) (scope_domain (Some a)) (tables cr) = [] ∧
                   tables cr !! k = None) ∨
                  search_ids (model_name model) (scope_domain (Some a)) (tables cr) = [i])) ∧
            (∀ r, tables cr !! k0 = Some r →
                  tables cr' !! k0 ≠ Some r →
                  r !! "company_id" = Some (VInt (id a))))
    as (k0 & Honly & Hwhich & Hscope).
  { subst cr'. unfold exec. rewrite set_settings_run.
    destruct (registry !! name) as [model|] eqn:Hreg; simpl;
      [|exists (name, 0%Z); repeat split; intros; done].
    destruct (search_ids (model_name model) _ (tables cr)) as [|i [|j l]] eqn:E; simpl;
      [| |exists (name, 0%Z); repeat split; intros; done].
    - set (k0 := (model_name model, next_id (model_name model) (tables cr))).
      assert (∀ k, <[k0 := new_settings_data model changes (Some a)]> (tables cr) !! k
                   ≠ tables cr !! k → k = k0) as Hk0.
      { intros k Hk. destruct (decide (k0 = k)) as [|Hne]; [done|].
        by rewrite lookup_insert_ne in Hk. }
      exists k0. split; [exact Hk0|]. split.
      + intros k Hk. rewrite (Hk0 k Hk).
        exists model, (next_id (model_name model) (tables cr)).
        split; [done|]. split; [done|]. left. split; [done|]. apply next_id_fresh.
      + intros r Hr. unfold k0 in Hr. by rewrite next_id_fresh in Hr.
    - destruct (search_ids_one_row _ _ _ _ E) as (r0 & Hr0 & Hd).
      apply (scope_domain_holds (Some a)) in Hd.
      assert (∀ k, alter (λ r, dict_update r changes) (model_name model, i) (tables cr) !! k
                   ≠ tables cr !! k → k = (model_name model, i)) as Hk0.
      { intros k Hk. destruct (decide ((model_name model, i) = k)) as [|Hne]; [done|].
        by rewrite lookup_alter_ne in Hk. }
      exists (model_name model, i). split; [exact Hk0|]. split.
      + intros k Hk. rewrite (Hk0 k Hk). exists model, i.
        split; [done|]. split; [done|]. by right.
      + intros r Hr _. congruence. }
  assert (∀ k r, tables cr !! k = Some r →
             r !! "company_id" ≠ Some (VInt (id a)) → tables cr' !! k = Some r) as Hother.
  { intros k r Hk Hne.
    destruct (decide (tables cr' !! k = Some r)) as [|Hchanged]; [done|].
    exfalso. apply Hne.
    assert (k = k0) as -> by (apply Honly; congruence).
    by apply Hscope. }
  split; [|split; [done|split; [done|]]].
  - intros k r Hk Hb. apply Hother; [done|]. rewrite Hb. congruence.
  - intros k1 k2 H1 H2. by rewrite (Honly k1 H1), (Honly k2 H2).
Qed.

Lemma set_settings_frame_witness :
  tables (exec (set_settings Scenario.registry "account.config.settings"
                  Scenario.sale_tax_42 (Some Scenario.company7))
               Scenario.configured) !! ("account.config.settings", 2%Z) =
  Some {[ "company_id" := VInt 8; "default_sale_tax" := VInt 20 ]}.
Proof.
  destruct (set_settings_frame Scenario.registry "account.config.settings"
              Scenario.sale_tax_42 Scenario.company7 Scenario.company8
              Scenario.configured) as [Hb _]; [vm_compute; discriminate|].
  apply Hb; vm_compute; reflexivity.
Defined.

(** C7, as stated, fails for the call without a company: its search domain
    is empty and matches the rows of every company, so on a store whose only
    settings record is company 8's, the call writes to that record. *)
Lemma set_settings_frame_fails_without_company :
  let cr := {| tables := {[ ("account.config.settings", 2%Z) :=
                              ({[ "company_id" := VInt 8 ]} : Dict) ]};
               log := [] |} in
  let cr' := exec (set_settings Scenario.registry "account.config.settings"
                     Scenario.sale_tax_42 None) cr in
  (None : option Company) ≠ Some Scenario.company8 ∧
  tables cr !! ("account.config.settings", 2%Z) = Some {[ "company_id" := VInt 8 ]} ∧
  tables cr' !! ("account.config.settings", 2%Z) =
    Some {[ "company_id" := VInt 8; "default_sale_tax" := VInt 42 ]} ∧
  tables cr' !! ("account.config.settings", 2%Z) ≠
    tables cr !! ("account.config.settings", 2%Z).
Proof.
  repeat split; try (vm_compute; reflexivity); [discriminate|].
  vm_compute. discriminate.
Qed.

Section idempotence.
Implicit Types (cr : Database) (changes r : Dict) (company : option Company).

Lemma dict_update_twice r changes :
  dict_update (dict_update r changes) changes = dict_update r changes.
Proof.
  apply map_eq. intros f. rewrite !dict_update_lookup.
  by destruct (changes !! f).
Qed.

Lemma dict_update_new_settings_data model changes company :
  scope_compatible company changes →
  dict_update (new_settings_data model changes company) changes =
  new_settings_data model changes company.
Proof.
  intros Hcompat. apply map_eq. intros f. rewrite dict_update_lookup.
  destruct (changes !! f) as [v|] eqn:E; [|done].
  unfold new_settings_data. destruct company as [c|].
  - destruct (decide (f = "company_id")) as [->|Hne].
    + rewrite lookup_insert_eq. destruct Hcompat as [Hc|Hc]; congruence.
    + rewrite lookup_insert_ne by done. by rewrite dict_update_lookup, E.
  - by rewrite dict_update_lookup, E.
Qed.

Lemma dict_update_in_scope company changes r :
  scope_compatible company changes →
  domain_holds (scope_domain company) r = true →
  domain_holds (scope_domain company) (dict_update r changes) = true.
Proof.
  rewrite !scope_domain_holds. destruct company as [c|]; [|done].
  intros [Hc|Hc] Hr; by rewrite dict_update_lookup, Hc.
Qed.

(** A call that finds the scope's one record. *)
Lemma set_settings_on_record registry name model changes company t lg i r :
  registry !! name = Some model →
  search_ids (model_name model) (scope_domain company) t = [i] →
  t !! (model_name model, i) = Some r →
  set_settings registry name changes company {| tables := t; log := lg |} =
  (Return (),
   {| tables := <[(model_name model, i) := dict_update r changes]> t;
      log := lg ++ [CWrite (model_name model) [i] changes;
                    CExecute (model_name model) [i]] |}).
Proof.
  intros Hreg Hs Hr. rewrite set_settings_run, Hreg. simpl. rewrite Hs.
  by rewrite (alter_present _ _ _ _ Hr).
Qed.

(** After a call that returns, the scope has exactly one record provided
    [changes] does not move the record to another company, and a second
    call only writes and executes. *)
Lemma set_settings_second_call registry name model changes company cr :
  scope_compatible company changes →
  registry !! name = Some model →
  length (search_ids (model_name model) (scope_domain company) (tables cr)) ≤ 1 →
  let once := exec (set_settings registry name changes company) cr in
  ∃ i r,
    search_ids (model_name model) (scope_domain company) (tables once) = [i] ∧
    tables once !! (model_name model, i) = Some r ∧
    dict_update r changes = r.
Proof.
  intros Hcompat Hreg Hlen. unfold exec. rewrite set_settings_run, Hreg. simpl.
  destruct (search_ids _ _ _) as [|i [|j l]] eqn:E; simpl in *; [| |lia].
  - eexists _, _. split; [|split].
    + apply search_ids_after_create; [done|apply new_settings_data_in_scope].
    + apply lookup_insert_eq.
    + by apply dict_update_new_settings_data.
  - destruct (search_ids_one_row _ _ _ _ E) as (r & Hr & Hd).
    rewrite (alter_present _ _ _ _ Hr). exists i, (dict_update r changes).
    split; [|split].
    + apply search_ids_after_write_in_scope; [done|].
      by apply dict_update_in_scope.
    + apply lookup_insert_eq.
    + apply dict_update_twice.
Qed.
End idempotence.

(** C6, as amended: for [changes] that name no [company_id] or the
    company's own (any [changes] when no company is given), calling
    [set_settings] twice leaves the rows that calling it once leaves; and
    from a store with at most one record for the scope, the second call
    finds the one record of the scope, writes and executes it, and creates
    nothing. *)
Theorem set_settings_idempotent registry name changes company cr :
  scope_compatible company changes →
  idempotent_at registry name changes company cr ∧
  (∀ model,
     registry !! name = Some model →
     length (search_ids (model_name model) (scope_domain company) (tables cr)) ≤ 1 →
     let once := exec (set_settings registry name changes company) cr in
     let twice := exec (set_settings registry name changes company) once in
     ∃ i,
       search_ids (model_name model) (scope_domain company) (tables once) = [i] ∧
       search_ids (model_name model) (scope_domain company) (tables twice) = [i] ∧
       log twice = log once ++ [CWrite (model_name model) [i] changes;
                                CExecute (model_name model) [i]]).
Proof.
  intros Hcompat.
  assert (∀ model,
     registry !! name = Some model →
     length (search_ids (model_name model) (scope_domain company) (tables cr)) ≤ 1 →
     let once := exec (set_settings registry name changes company) cr in
     let twice := exec (set_settings registry name changes company) once in
     tables twice = tables once ∧
     ∃ i,
       search_ids (model_name model) (scope_domain company) (tables once) = [i] ∧
       search_ids (model_name model) (scope_domain company) (tables twice) = [i] ∧
       log twice = log once ++ [CWrite (model_name model) [i] changes;
                                CExecute (model_name model) [i]]) as Hboth.
  { intros model Hreg Hlen once twice.
    destruct (set_settings_second_call registry name model changes company cr
                Hcompat Hreg Hlen) as (i & r & Hs & Hr & Hfix).
    fold once in Hs, Hr. subst twice. clearbody once.
    destruct once as [t1 lg1]. simpl in Hs, Hr. unfold exec.
    rewrite (set_settings_on_record _ _ _ _ _ _ _ _ _ Hreg Hs Hr). simpl.
    rewrite Hfix, (insert_id _ _ _ Hr). split; [done|]. by exists i. }
  split; [|intros model Hreg Hlen; by apply Hboth].
  unfold idempotent_at.
  destruct (registry !! name) as [model|] eqn:Hreg.
  - destruct (decide (length (search_ids (model_name model) (scope_domain company)
                                (tables cr)) ≤ 1)) as [Hlen|Hlen].
    + by apply (Hboth model).
    + unfold exec at 2 3. rewrite set_settings_run, Hreg. simpl.
      destruct (search_ids _ _ _) as [|i [|j l]] eqn:E; simpl in Hlen; [lia|lia|].
      simpl. unfold exec. rewrite set_settings_run, Hreg. simpl. by rewrite E.
  - unfold exec. by rewrite !set_settings_run, Hreg.
Qed.

Lemma set_settings_idempotent_witness :
  idempotent_at Scenario.registry "account.config.settings" Scenario.sale_tax_42
    (Some Scenario.company7) Scenario.configured.
Proof.
  apply set_settings_idempotent. left. vm_compute. reflexivity.
Defined.

(** C6, as stated, fails: on a store with no settings record, a call for
    company 7 with [changes = {'company_id': 8}] creates record 1 for
    company 7; the same call again finds that record and writes
    [company_id = 8] to it, so the rows after two calls are not the rows
    after one, and company 7 is left without a record. *)
Lemma set_settings_not_idempotent :
  let run := set_settings Scenario.registry "account.config.settings"
               Scenario.move_to_8 (Some Scenario.company7) in
  let once := exec run Scenario.fresh_install in
  let twice := exec run once in
  length (search_ids "account.config.settings" (scope_domain (Some Scenario.company7))
            (tables Scenario.fresh_install)) ≤ 1 ∧
  tables once !! ("account.config.settings", 1%Z) =
    Some {[ "company_id" := VInt 7; "date_start" := VStr "2014-01-01" ]} ∧
  tables twice !! ("account.config.settings", 1%Z) =
    Some {[ "company_id" := VInt 8; "date_start" := VStr "2014-01-01" ]} ∧
  search_ids "account.config.settings" (scope_domain (Some Scenario.company7))
    (tables once) = [1%Z] ∧
  search_ids "account.config.settings" (scope_domain (Some Scenario.company7))
    (tables twice) = [] ∧
  ¬ idempotent_at Scenario.registry "account.config.settings" Scenario.move_to_8
      (Some Scenario.company7) Scenario.fresh_install.
Proof.
  repeat split; try (vm_compute; reflexivity).
  - vm_compute. lia.
  - unfold idempotent_at. intros H.
    apply (f_equal (λ t, t !! ("account.config.settings", 1%Z))) in H.
    vm_compute in H. discriminate H.
Qed.

(** ** Consolidation accounts *)

Section consolidation.
Lemma bind_constant {A B} (inner : list A) (v : B) :
  (inner ≫= λ _, [v]) = replicate (length inner) v.
Proof. induction inner as [|x inner IH]; [done|]. simpl. by f_equal. Qed.

Lemma bind_bind_constant {A B C} (outer : list A) (inner : list B) (g : A → C) :
  (x ← outer; _ ← inner; [g x]) =
  flat_map (λ x, replicate (length inner) (g x)) outer.
Proof.
  induction outer as [|x outer IH]; [done|].
  simpl. f_equal; [apply bind_constant|apply IH].
Qed.

Lemma child_consol_ids_unfold (children : list Id) :
  child_consol_ids children =
  flat_map (λ child_id,
              replicate (length children)
                (VTuple [VInt ADD_EXISTING_ID; VInt child_id; VBool false]))
           children.
Proof. apply bind_bind_constant. Qed.

Lemma length_flat_map_replicate {A B} (n : nat) (g : A → B) (l : list A) :
  length (flat_map (λ x, replicate n (g x)) l) = length l * n.
Proof.
  induction l as [|x l IH]; [done|].
  simpl. rewrite length_app, length_replicate, IH. lia.
Qed.
End consolidation.

(** C9: when [create_consolidation_account] returns, the dictionary it has
    handed to [create] holds under [child_consol_ids] a list of [n * n]
    tuples for [n] children: for each child in turn, [n] copies of
    [(4, child_id, False)], not one tuple per child. *)
Theorem create_consolidation_account_children registry company code name children
    cr new_id cr' :
  create_consolidation_account registry company code name children cr =
    (Return new_id, cr') →
  ∃ account data tuples,
    registry !! "account.account" = Some account ∧
    log cr' = log cr ++ [CCreate (model_name account) data new_id] ∧
    data !! "child_consol_ids" = Some (VList tuples) ∧
    tuples = flat_map (λ child_id,
                         replicate (length children)
                           (VTuple [VInt 4; VInt child_id; VBool false]))
                      children ∧
    length tuples = length children * length children.
Proof.
  unfold create_consolidation_account, registry_getitem.
  destruct (registry !! "account.account.type") as [account_type|]; [|intros [=]].
  unfold mbind at 1, M_bind at 1, mret at 1, M_ret at 1.
  unfold mbind at 1, M_bind at 1. rewrite get_exactly_one_id_run.
  destruct (search_ids _ _ _) as [|view_id [|j l]]; [intros [=]| |intros [=]].
  destruct (registry !! "account.account") as [account|]; [|intros [=]].
  unfold mbind, M_bind, mret, M_ret, create. simpl. intros [= <- <-]. simpl.
  eexists account, _, (child_consol_ids children).
  split; [done|]. split; [done|]. split; [|split].
  - by simplify_map_eq.
  - apply child_consol_ids_unfold.
  - rewrite child_consol_ids_unfold. apply length_flat_map_replicate.
Qed.

Lemma create_consolidation_account_children_witness :
  ∃ account data tuples,
    Scenario.registry !! "account.account" = Some account ∧
    log (exec (create_consolidation_account Scenario.registry Scenario.company7
                 "C1" "Consolidated" [10; 20; 30]%Z) Scenario.fresh_install) =
      log Scenario.fresh_install ++ [CCreate (model_name account) data 1%Z] ∧
    data !! "child_consol_ids" = Some (VList tuples) ∧
    tuples = flat_map (λ child_id,
                         replicate (length [10; 20; 30]%Z)
                           (VTuple [VInt 4; VInt child_id; VBool false]))
                      [10; 20; 30]%Z ∧
    length tuples = length [10; 20; 30]%Z * length [10; 20; 30]%Z.
Proof.
  apply (create_consolidation_account_children Scenario.registry Scenario.company7
           "C1" "Consolidated" [10; 20; 30]%Z Scenario.fresh_install 1%Z).
  vm_compute. reflexivity.
Defined.

(** Two children give four tuples, two for each child. *)
Example child_consol_ids_two :
  child_consol_ids [10; 20]%Z =
  [VTuple [VInt 4; VInt 10; VBool false]; VTuple [VInt 4; VInt 10; VBool false];
   VTuple [VInt 4; VInt 20; VBool false]; VTuple [VInt 4; VInt 20; VBool false]].
Proof. reflexivity. Qed.

(** ** Lookups by company and code *)

Section lookups.
Implicit Types (cr : Database) (self : Lookup.t) (domain : Domain).

Lemma get_exactly_one_id_returns_iff model domain cr i :
  get_exactly_one_id model domain cr = (Return i, cr) ↔
  (∀ j, j ∈ search_ids (model_name model) domain (tables cr) ↔ j = i).
Proof.
  rewrite get_exactly_one_id_run. split.
  - destruct (search_ids _ _ _) as [|a [|b l]] eqn:E; intros [= <-].
    intros j. by rewrite list_elem_of_singleton.
  - intros Hiff. by rewrite (search_ids_singleton _ _ _ _ Hiff).
Qed.

Lemma company_code_holds (company : Company) (code : string) (r : Dict) :
  domain_holds [LeafEq "company_id" (VInt (id company)); LeafEq "code" (VStr code)] r = true ↔
  r !! "company_id" = Some (VInt (id company)) ∧ r !! "code" = Some (VStr code).
Proof.
  simpl. rewrite andb_true_r, andb_true_iff, !bool_decide_eq_true. done.
Qed.

Lemma lookup_exactly_one_id_run self m domain cr :
  Lookup.exactly_one_id self m domain cr =
  match Lookup._autoresolve_model self m cr with
  | (Return modobj, cr') =>
      match Lookup._context self with
      | Some _ => call (get_exactly_one_id modobj domain) cr'
      | None => (Failed AttributeError, cr')
      end
  | (Raise e, cr') => (Failed (Raised e), cr')
  end.
Proof.
  unfold Lookup.exactly_one_id, mbind, Py_bind, call at 1.
  destruct (Lookup._autoresolve_model self m cr) as [[modobj|e] cr']; [|done].
  by destruct (Lookup._context self).
Qed.

Lemma lookup_maybe_id_run self m domain cr :
  Lookup.maybe_id self m domain cr =
  match Lookup._autoresolve_model self m cr with
  | (Return modobj, cr') =>
      match Lookup._context self with
      | Some _ => call (get_maybe_id modobj domain) cr'
      | None => (Failed AttributeError, cr')
      end
  | (Raise e, cr') => (Failed (Raised e), cr')
  end.
Proof.
  unfold Lookup.maybe_id, mbind, Py_bind, call at 1.
  destruct (Lookup._autoresolve_model self m cr) as [[modobj|e] cr']; [|done].
  by destruct (Lookup._context self).
Qed.
End lookups.

(** X1: [get_account_id] returns [i] exactly when row [i] of the account
    model is the one and only row with the company's [company_id] and the
    given [code]. *)
Theorem get_account_id_returns_iff registry account company code cr i :
  registry !! "account.account" = Some account →
  get_account_id registry company code cr = (Return i, cr) ↔
  (∀ j, (∃ r, tables cr !! (model_name account, j) = Some r ∧
              r !! "company_id" = Some (VInt (id company)) ∧
              r !! "code" = Some (VStr code)) ↔ j = i).
Proof.
  intros Hreg. unfold get_account_id, registry_getitem. rewrite Hreg.
  unfold mbind at 1, M_bind at 1, mret at 1, M_ret at 1.
  rewrite get_exactly_one_id_returns_iff.
  apply forall_proper. intros j. rewrite elem_of_search_ids.
  by setoid_rewrite company_code_holds.
Qed.

(** X2: a [Lookup] made without a context cannot look anything up: for a
    model that resolves, [exactly_one_id] and [maybe_id] raise
    [AttributeError] before any search, whatever the store holds. *)
Theorem lookup_without_context self m modobj domain cr :
  Lookup._context self = None →
  Lookup._autoresolve_model self m cr = (Return modobj, cr) →
  Lookup.exactly_one_id self m domain cr = (Failed AttributeError, cr) ∧
  Lookup.maybe_id self m domain cr = (Failed AttributeError, cr).
Proof.
  intros Hctx Hres.
  by rewrite lookup_exactly_one_id_run, lookup_maybe_id_run, Hres, Hctx.
Qed.

(** X3: for a model name that is not registered, [exactly_one_id] and
    [maybe_id] raise the [KeyError] of the registry, with or without a
    context, and leave the database as it was. *)
Theorem lookup_unknown_model self name domain cr :
  Lookup._registry self !! name = None →
  Lookup.exactly_one_id self (inl name) domain cr = (Failed (Raised (KeyError name)), cr) ∧
  Lookup.maybe_id self (inl name) domain cr = (Failed (Raised (KeyError name)), cr).
Proof.
  intros Hreg. rewrite lookup_exactly_one_id_run, lookup_maybe_id_run.
  unfold Lookup._autoresolve_model, Lookup.model, registry_getitem.
  by rewrite Hreg.
Qed.

(** X4: on a [Lookup] that has a context, [account_id] gives what the
    deprecated [get_account_id] gives on the same registry. *)
Theorem lookup_account_id_as_get_account_id self context company code cr :
  Lookup._context self = Some context →
  Lookup.account_id self company code cr =
  call (get_account_id (Lookup._registry self) company code) cr.
Proof.
  intros Hctx. unfold Lookup.account_id.
  rewrite lookup_exactly_one_id_run, Hctx.
  unfold Lookup._autoresolve_model, Lookup.model, get_account_id, registry_getitem, call.
  destruct (Lookup._registry self !! "account.account") as [account|]; [|done].
  done.
Qed.

Lemma get_account_id_returns_iff_witness :
  get_account_id Install.registry Install.company1 "4000" Install.books =
  (Return 10%Z, Install.books).
Proof.
  apply (get_account_id_returns_iff Install.registry
           (Install.model_of "account.account") Install.company1 "4000"
           Install.books 10%Z eq_refl).
  intros j. split.
  - intros (r & Hr & Hc).
    assert (j ∈ search_ids "account.account"
                  [LeafEq "company_id" (VInt 1); LeafEq "code" (VStr "4000")]
                  (tables Install.books)) as Hin.
    { apply elem_of_search_ids. exists r. split; [exact Hr|].
      by apply (company_code_holds Install.company1). }
    vm_compute in Hin. by apply list_elem_of_singleton in Hin.
  - intros ->. eexists. repeat split; vm_compute; reflexivity.
Defined.

Lemma lookup_without_context_witness :
  Lookup.exactly_one_id Install.without_context (inl "account.tax")
    [LeafEq "description" (VStr "ST1")] Install.books =
    (Failed AttributeError, Install.books) ∧
  Lookup.maybe_id Install.without_context (inl "account.tax")
    [LeafEq "description" (VStr "ST1")] Install.books =
    (Failed AttributeError, Install.books).
Proof.
  apply (lookup_without_context Install.without_context (inl "account.tax")
           (Install.model_of "account.tax")); reflexivity.
Defined.

Lemma lookup_unknown_model_witness :
  Lookup.exactly_one_id Install.with_context (inl "res.partner") [] Install.books =
    (Failed (Raised (KeyError "res.partner")), Install.books) ∧
  Lookup.maybe_id Install.with_context (inl "res.partner") [] Install.books =
    (Failed (Raised (KeyError "res.partner")), Install.books).
Proof. apply lookup_unknown_model. reflexivity. Defined.

Lemma lookup_account_id_as_get_account_id_witness :
  Lookup.account_id Install.with_context Install.company1 "5000" Install.books =
  call (get_account_id Install.registry Install.company1 "5000") Install.books.
Proof.
  apply (lookup_account_id_as_get_account_id Install.with_context ∅). reflexivity.
Defined.

(** ** External identifiers and references *)

Section strings.
Implicit Types (sep : ascii) (a r : string).

Lemma contains_app_sep sep a r : contains sep (a +:+ String sep r) = true.
Proof.
  induction a as [|c a IH]; simpl.
  - by destruct (decide (sep = sep)).
  - by destruct (decide (c = sep)).
Qed.

Lemma split_parts_app sep a r :
  contains sep a = false →
  split_parts sep (a +:+ String sep r) =
  (a, (split_parts sep r).1 :: (split_parts sep r).2).
Proof.
  induction a as [|c a IH]; simpl.
  - intros _. destruct (split_parts sep r). by destruct (decide (sep = sep)).
  - destruct (decide (c = sep)); [done|]. intros Ha. by rewrite (IH Ha).
Qed.

Lemma split_parts_no_sep sep a :
  contains sep a = false → split_parts sep a = (a, []).
Proof.
  induction a as [|c a IH]; simpl; [done|].
  destruct (decide (c = sep)); [done|]. intros Ha. by rewrite (IH Ha).
Qed.

Lemma split_app sep a r :
  contains sep a = false → contains sep r = false →
  split sep (a +:+ String sep r) = [a; r].
Proof.
  intros Ha Hr. unfold split.
  by rewrite (split_parts_app _ _ _ Ha), (split_parts_no_sep _ _ Hr).
Qed.

Lemma split_parts_app_length sep a r :
  length (split_parts sep (a +:+ String sep r)).2 ≥
  1 + length (split_parts sep r).2.
Proof.
  induction a as [|c a IH]; simpl.
  - destruct (split_parts sep r). destruct (decide (sep = sep)); [simpl; lia|done].
  - destruct (split_parts sep (a +:+ String sep r)) as [p ps]. simpl in IH.
    destruct (decide (c = sep)); simpl; lia.
Qed.

Lemma app_sep_inj sep a a' r r' :
  contains sep a = false → contains sep a' = false →
  a +:+ String sep r = a' +:+ String sep r' → a = a' ∧ r = r'.
Proof.
  revert a'. induction a as [|c a IH]; intros [|c' a']; simpl.
  - intros _ _ [= ->]. done.
  - destruct (decide (c' = sep)); [done|]. intros _ _ [= <- _]. done.
  - destruct (decide (c = sep)); [done|]. intros _ _ [= -> _]. done.
  - destruct (decide (c = sep)); [done|]. destruct (decide (c' = sep)); [done|].
    intros Ha Ha' [= -> Heq]. destruct (IH a' Ha Ha' Heq) as [-> ->]. done.
Qed.
End strings.

(** X5: the two call forms of [Lookup.xmlid] agree: for a module name and
    an identifier without dots, [xmlid('module.identifier')] does what
    [xmlid('module', 'identifier')] does, whatever is passed as the second
    argument of the dotted form. *)
Theorem xmlid_dotted_as_pair {Obj} (get_object : Model → string → string → Py Obj)
    self module identifier ignored cr :
  contains "."%char module = false →
  contains "."%char identifier = false →
  Lookup.xmlid get_object self (module +:+ "." +:+ identifier) ignored cr =
  Lookup.xmlid get_object self module (VStr identifier) cr.
Proof.
  intros Hm Hi. unfold Lookup.xmlid, mbind, Py_bind.
  destruct (call _ cr) as [[IMD|f] cr']; [|done].
  change (module +:+ "." +:+ identifier) with (module +:+ String "."%char identifier).
  by rewrite contains_app_sep, (split_app _ _ _ Hm Hi), Hm.
Qed.

(** X6: an identifier with two or more dots makes [Lookup.xmlid] raise
    [ValueError] when it unpacks the split, before [get_object] is
    called. *)
Theorem xmlid_two_dots {Obj} (get_object : Model → string → string → Py Obj)
    self IMD a b c second cr :
  Lookup._registry self !! "ir.model.data" = Some IMD →
  Lookup.xmlid get_object self (a +:+ "." +:+ b +:+ "." +:+ c) second cr =
  (Failed ValueError, cr).
Proof.
  intros Hreg. unfold Lookup.xmlid, mbind, Py_bind, call, registry_getitem.
  rewrite Hreg. simpl.
  change (a +:+ "." +:+ b +:+ "." +:+ c)
    with (a +:+ String "."%char (b +:+ String "."%char c)).
  rewrite contains_app_sep. unfold split.
  pose proof (split_parts_app_length "."%char a (b +:+ String "."%char c)) as H1.
  pose proof (split_parts_app_length "."%char b c) as H2.
  destruct (split_parts "."%char (a +:+ String "."%char (b +:+ String "."%char c)))
    as [p [|q1 [|q2 ps]]]; simpl in *; try lia. done.
Qed.

(** X7: without a dot in the first argument, [Lookup.xmlid] needs a string
    as second argument: with the default [None], or anything that is not a
    string, it raises [TypeError] and [get_object] is not called. *)
Theorem xmlid_needs_identifier {Obj} (get_object : Model → string → string → Py Obj)
    self IMD module second cr :
  Lookup._registry self !! "ir.model.data" = Some IMD →
  contains "."%char module = false →
  (∀ s, second ≠ VStr s) →
  Lookup.xmlid get_object self module second cr = (Failed TypeError, cr).
Proof.
  intros Hreg Hm Hsecond. unfold Lookup.xmlid, mbind, Py_bind, call, registry_getitem.
  rewrite Hreg, Hm. simpl. destruct second; try done. by destruct (Hsecond s).
Qed.

(** X8: [makeref] keeps model and identifier apart: for model names
    without a comma, two references are equal only if both the model names
    and the identifiers are. *)
Theorem makeref_inj model_name1 model_name2 id1 id2 :
  contains ","%char model_name1 = false →
  contains ","%char model_name2 = false →
  makeref model_name1 id1 = makeref model_name2 id2 →
  model_name1 = model_name2 ∧ id1 = id2.
Proof.
  intros H1 H2 Heq. unfold makeref in Heq.
  destruct (app_sep_inj ","%char _ _ _ _ H1 H2 Heq) as [-> Hp].
  split; [done|]. by apply (inj pretty).
Qed.

(** The example of the docstring of [makeref]. *)
Example makeref_doctest : makeref "product.pricelist" 3 = "product.pricelist,3".
Proof. vm_compute. reflexivity. Qed.

Lemma xmlid_dotted_as_pair_witness :
  Lookup.xmlid Install.echo_object Install.without_context
    "purchase.route_warehouse0_buy" VNone Install.books =
  Lookup.xmlid Install.echo_object Install.without_context
    "purchase" (VStr "route_warehouse0_buy") Install.books.
Proof.
  apply (xmlid_dotted_as_pair Install.echo_object Install.without_context
           "purchase" "route_warehouse0_buy" VNone Install.books); reflexivity.
Defined.

Lemma xmlid_two_dots_witness :
  Lookup.xmlid Install.echo_object Install.with_context "a.b.c" VNone Install.books =
  (Failed ValueError, Install.books).
Proof.
  apply (xmlid_two_dots Install.echo_object Install.with_context
           (Install.model_of "ir.model.data") "a" "b" "c" VNone Install.books).
  reflexivity.
Defined.

Lemma xmlid_needs_identifier_witness :
  Lookup.xmlid Install.echo_object Install.with_context "purchase" VNone Install.books =
  (Failed TypeError, Install.books).
Proof.
  apply (xmlid_needs_identifier Install.echo_object Install.with_context
           (Install.model_of "ir.model.data") "purchase" VNone Install.books);
    [reflexivity|reflexivity|discriminate].
Defined.

Lemma makeref_inj_witness :
  "product.pricelist" = "product.pricelist" ∧ 3%Z = 3%Z.
Proof.
  apply (makeref_inj "product.pricelist" "product.pricelist" 3 3); reflexivity.
Defined.

(** ** More on [set_settings] *)

Section settings_more.
Implicit Types (cr : Database) (changes r : Dict) (company : option Company).

Lemma set_settings_raise_unchanged registry name changes company cr e cr' :
  set_settings registry name changes company cr = (Raise e, cr') → cr' = cr.
Proof.
  rewrite set_settings_run. destruct (registry !! name) as [model|]; simpl.
  - destruct (search_ids _ _ _) as [|i [|j l]]; by intros [= _ <-].
  - by intros [= _ <-].
Qed.

Lemma two_elements (l : list Id) i j :
  i ∈ l → j ∈ l → i ≠ j → ∃ a b l', l = a :: b :: l'.
Proof.
  intros Hi Hj Hne. destruct l as [|a [|b l']]; [| |by eauto].
  - by apply elem_of_nil in Hi.
  - apply list_elem_of_singleton in Hi, Hj. congruence.
Qed.

(** Searches over a model read the rows of that model only. *)
Lemma search_ids_ext (name : string) (domain : Domain)
    (t1 t2 : gmap (string * Id) Dict) :
  (∀ i r, t1 !! (name, i) = Some r ∧ domain_holds domain r = true ↔
          t2 !! (name, i) = Some r ∧ domain_holds domain r = true) →
  search_ids name domain t1 = search_ids name domain t2.
Proof.
  intros Hext. unfold search_ids.
  assert (matching name domain t1 = matching name domain t2) as ->; [|done].
  unfold matching. apply map_eq. intros [n i]. apply option_eq. intros r.
  rewrite !map_lookup_filter_Some. simpl. split.
  - intros (Hr & -> & Hd). destruct (proj1 (Hext i r)); done.
  - intros (Hr & -> & Hd). destruct (proj2 (Hext i r)); done.
Qed.

(** What a call that finds at most one record for its scope leaves
    behind, when [changes] does not move the record to another company. *)
Lemma set_settings_applies registry name model changes company cr :
  scope_compatible company changes →
  registry !! name = Some model →
  length (search_ids (model_name model) (scope_domain company) (tables cr)) ≤ 1 →
  ∃ cr' i r,
    set_settings registry name changes company cr = (Return (), cr') ∧
    search_ids (model_name model) (scope_domain company) (tables cr') = [i] ∧
    tables cr' !! (model_name model, i) = Some r ∧
    dict_update r changes = r ∧
    domain_holds (scope_domain company) r = true ∧
    (∀ k, k ≠ (model_name model, i) → tables cr' !! k = tables cr !! k).
Proof.
  intros Hcompat Hreg Hlen. rewrite set_settings_run, Hreg. simpl.
  destruct (search_ids _ _ _) as [|i [|j l]] eqn:E; simpl in *; [| |lia].
  - eexists _, _, _. split; [done|]. simpl. split; [|split; [|split; [|split]]].
    + apply search_ids_after_create; [done|apply new_settings_data_in_scope].
    + apply lookup_insert_eq.
    + by apply dict_update_new_settings_data.
    + apply new_settings_data_in_scope.
    + intros k Hk. by rewrite lookup_insert_ne.
  - destruct (search_ids_one_row _ _ _ _ E) as (r & Hr & Hd).
    rewrite (alter_present _ _ _ _ Hr).
    eexists _, i, _. split; [done|]. simpl. split; [|split; [|split; [|split]]].
    + apply search_ids_after_write_in_scope; [done|].
      by apply dict_update_in_scope.
    + apply lookup_insert_eq.
    + apply dict_update_twice.
    + by apply dict_update_in_scope.
    + intros k Hk. by rewrite lookup_insert_ne.
Qed.

(** A second identical call changes no row. *)
Lemma set_settings_again registry name changes company cr :
  scope_compatible company changes →
  let once := exec (set_settings registry name changes company) cr in
  tables (exec (set_settings registry name changes company) once) = tables once.
Proof.
  intros Hcompat once. subst once. unfold exec.
  destruct (set_settings registry name changes company cr) as [[[]|e] cr1] eqn:Hrun.
  - simpl. destruct (registry !! name) as [model|] eqn:Hreg.
    + rewrite set_settings_run, Hreg in Hrun. simpl in Hrun.
      destruct (set_settings_applies registry name model changes company cr
                  Hcompat Hreg) as (cr1' & i & r & Hrun' & Hs & Hr & Hfix & _).
      { destruct (search_ids _ _ _) as [|a [|b l]]; simpl; [lia|lia|done]. }
      rewrite set_settings_run, Hreg in Hrun'. simpl in Hrun'.
      rewrite Hrun in Hrun'. injection Hrun' as <-.
      destruct cr1 as [t1 lg1]. simpl in *.
      rewrite (set_settings_on_record _ _ _ _ _ _ _ _ _ Hreg Hs Hr). simpl.
      by rewrite Hfix, (insert_id _ _ _ Hr).
    + rewrite set_settings_run, Hreg in Hrun. done.
  - pose proof (set_settings_raise_unchanged _ _ _ _ _ _ _ Hrun) as ->.
    simpl. by rewrite Hrun.
Qed.
End settings_more.

(** X9: without a company, [set_settings] searches the whole model: as
    soon as the model has two rows, of whatever company, the call raises
    [TooManyRecordsError] and changes nothing. *)
Theorem set_settings_without_company_two_rows registry name model changes cr i j ri rj :
  registry !! name = Some model →
  i ≠ j →
  tables cr !! (model_name model, i) = Some ri →
  tables cr !! (model_name model, j) = Some rj →
  set_settings registry name changes None cr = (Raise (TooManyRecordsError []), cr).
Proof.
  intros Hreg Hne Hi Hj. rewrite set_settings_run, Hreg. simpl.
  destruct (two_elements (search_ids (model_name model) [] (tables cr)) i j)
    as (a & b & l & ->); [| |done|done].
  - apply elem_of_search_ids. eauto.
  - apply elem_of_search_ids. eauto.
Qed.

Lemma set_settings_without_company_two_rows_witness :
  set_settings Scenario.registry "account.config.settings" Scenario.sale_tax_42 None
    Scenario.configured =
  (Raise (TooManyRecordsError []), Scenario.configured).
Proof.
  apply (set_settings_without_company_two_rows _ "account.config.settings"
           Scenario.account_config_settings Scenario.sale_tax_42 Scenario.configured
           1%Z 2%Z
           {[ "company_id" := VInt 7; "default_sale_tax" := VInt 10;
              "date_start" := VStr "2014-01-01" ]}
           {[ "company_id" := VInt 8; "default_sale_tax" := VInt 20 ]});
    [reflexivity|discriminate|vm_compute; reflexivity|vm_compute; reflexivity].
Defined.

(** X10: a call of [set_settings] for company A whose [changes] name no
    [company_id] leaves the records of every other company B as the search
    finds them, in every model: a store with at most one settings record per
    company stays one. *)
Theorem set_settings_keeps_other_companies registry name changes a b other cr :
  changes !! "company_id" = None →
  id a ≠ id b →
  search_ids other (scope_domain (Some b))
    (tables (exec (set_settings registry name changes (Some a)) cr)) =
  search_ids other (scope_domain (Some b)) (tables cr).
Proof.
  intros Hch Hab. unfold exec. rewrite set_settings_run.
  destruct (registry !! name) as [model|]; [|done]. simpl.
  destruct (search_ids (model_name model) _ (tables cr)) as [|i0 [|j0 l]] eqn:E;
    [| |done]; simpl.
  - apply search_ids_ext. intros i r.
    destruct (decide ((model_name model, next_id (model_name model) (tables cr)) = (other, i)))
      as [Heq|Hne].
    + rewrite <- Heq, lookup_insert_eq, next_id_fresh. split.
      * intros [[= <-] Hd]. apply (scope_domain_holds (Some b)) in Hd.
        simpl in Hd. rewrite lookup_insert_eq in Hd. congruence.
      * intros [[=] _].
    + by rewrite lookup_insert_ne.
  - destruct (search_ids_one_row _ _ _ _ E) as (r0 & Hr0 & Hd0).
    apply (scope_domain_holds (Some a)) in Hd0.
    rewrite (alter_present _ _ _ _ Hr0).
    apply search_ids_ext. intros i r.
    destruct (decide ((model_name model, i0) = (other, i))) as [Heq|Hne].
    + rewrite <- Heq, lookup_insert_eq, Hr0. split.
      * intros [[= <-] Hd]. apply (scope_domain_holds (Some b)) in Hd.
        rewrite dict_update_lookup, Hch, Hd0 in Hd. congruence.
      * intros [[= <-] Hd]. apply (scope_domain_holds (Some b)) in Hd.
        rewrite Hd0 in Hd. congruence.
    + by rewrite lookup_insert_ne.
Qed.

Lemma set_settings_keeps_other_companies_witness :
  search_ids "account.config.settings" (scope_domain (Some Scenario.company8))
    (tables (exec (set_settings Scenario.registry "account.config.settings"
                     Scenario.sale_tax_42 (Some Scenario.company7))
                  Scenario.configured)) =
  search_ids "account.config.settings" (scope_domain (Some Scenario.company8))
    (tables Scenario.configured).
Proof.
  apply set_settings_keeps_other_companies; [reflexivity|discriminate].
Defined.

(** ** Default taxes and currencies *)

Section taxes.
Implicit Types (cr : Database) (company : Company).

Lemma set_default_taxes_run registry company sales_code purchase_code cr :
  set_default_taxes registry company sales_code purchase_code cr =
  match registry !! "account.tax" with
  | None => (Raise (KeyError "account.tax"), cr)
  | Some taxes_model =>
      match get_exactly_one_id taxes_model
              [LeafEq "company_id" (VInt (id company));
               LeafEq "description" (VStr sales_code)] cr with
      | (Raise e, _) => (Raise e, cr)
      | (Return sales_tax_id, _) =>
          match get_exactly_one_id taxes_model
                  [LeafEq "company_id" (VInt (id company));
                   LeafEq "description" (VStr purchase_code)] cr with
          | (Raise e, _) => (Raise e, cr)
          | (Return purchase_tax_id, _) =>
              set_settings registry "account.config.settings"
                {[ "default_sale_tax" := VInt sales_tax_id;
                   "default_purchase_tax" := VInt purchase_tax_id ]}
                (Some company) cr
          end
      end
  end.
Proof.
  unfold set_default_taxes, registry_getitem.
  destruct (registry !! "account.tax") as [taxes_model|]; [|done].
  unfold mbind at 1, M_bind at 1, mret at 1, M_ret at 1.
  unfold mbind at 1, M_bind at 1. rewrite !get_exactly_one_id_run.
  destruct (search_ids _ _ _) as [|s [|s' l]]; [done| |done].
  unfold mbind at 1, M_bind at 1. rewrite get_exactly_one_id_run.
  by destruct (search_ids _ _ _) as [|p [|p' l]].
Qed.

Lemma get_exactly_one_id_keeps model domain cr res cr' :
  get_exactly_one_id model domain cr = (res, cr') → cr' = cr.
Proof. rewrite get_exactly_one_id_run. by intros [= _ <-]. Qed.

Lemma set_default_taxes_raise_keeps registry company sales_code purchase_code cr e cr' :
  set_default_taxes registry company sales_code purchase_code cr = (Raise e, cr') →
  cr' = cr.
Proof.
  rewrite set_default_taxes_run.
  destruct (registry !! "account.tax") as [taxes_model|]; [|by intros [= _ <-]].
  destruct (get_exactly_one_id taxes_model _ cr) as [[s|e1] cr1]; [|by intros [= _ <-]].
  destruct (get_exactly_one_id taxes_model _ cr) as [[p|e2] cr2]; [|by intros [= _ <-]].
  apply set_settings_raise_unchanged.
Qed.

Lemma set_default_taxes_return_inv registry company sales_code purchase_code cr cr1 :
  set_default_taxes registry company sales_code purchase_code cr = (Return (), cr1) →
  ∃ taxes_model s p,
    registry !! "account.tax" = Some taxes_model ∧
    get_exactly_one_id taxes_model
      [LeafEq "company_id" (VInt (id company)); LeafEq "description" (VStr sales_code)] cr =
      (Return s, cr) ∧
    get_exactly_one_id taxes_model
      [LeafEq "company_id" (VInt (id company)); LeafEq "description" (VStr purchase_code)] cr =
      (Return p, cr) ∧
    set_settings registry "account.config.settings"
      {[ "default_sale_tax" := VInt s; "default_purchase_tax" := VInt p ]}
      (Some company) cr = (Return (), cr1).
Proof.
  rewrite set_default_taxes_run.
  destruct (registry !! "account.tax") as [taxes_model|]; [|done].
  set (ds := [LeafEq "company_id" (VInt (id company)); LeafEq "description" (VStr sales_code)]).
  set (dp := [LeafEq "company_id" (VInt (id company)); LeafEq "description" (VStr purchase_code)]).
  destruct (get_exactly_one_id taxes_model ds cr) as [[s|e1] cr2] eqn:Hs; [|done].
  destruct (get_exactly_one_id taxes_model dp cr) as [[p|e2] cr3] eqn:Hp; [|done].
  intros Hrun. exists taxes_model, s, p.
  rewrite (get_exactly_one_id_keeps _ _ _ _ _ Hs) in Hs.
  rewrite (get_exactly_one_id_keeps _ _ _ _ _ Hp) in Hp. done.
Qed.
End taxes.

(** X11: a tax lookup that fails stops [set_default_taxes] before any
    call on the settings: when the sales code, or else the purchase code,
    does not name exactly one tax of the company, the error of that lookup
    leaves [set_default_taxes] and the database, rows and call log, is as it
    was.  The sales code is looked up first. *)
Theorem set_default_taxes_lookup_failure registry taxes_model company sales_code
    purchase_code cr e :
  registry !! "account.tax" = Some taxes_model →
  get_exactly_one_id taxes_model
    [LeafEq "company_id" (VInt (id company)); LeafEq "description" (VStr sales_code)] cr =
    (Raise e, cr) ∨
  (∃ sales_tax_id,
     get_exactly_one_id taxes_model
       [LeafEq "company_id" (VInt (id company)); LeafEq "description" (VStr sales_code)] cr =
       (Return sales_tax_id, cr) ∧
     get_exactly_one_id taxes_model
       [LeafEq "company_id" (VInt (id company)); LeafEq "description" (VStr purchase_code)] cr =
       (Raise e, cr)) →
  set_default_taxes registry company sales_code purchase_code cr = (Raise e, cr).
Proof.
  intros Htax Hfail. rewrite set_default_taxes_run, Htax.
  destruct Hfail as [Hs|(s & Hs & Hp)].
  - by rewrite Hs.
  - by rewrite Hs, Hp.
Qed.

Lemma set_default_taxes_lookup_failure_witness :
  set_default_taxes Install.registry Install.company1 "ST1" "PT9" Install.books =
  (Raise (NoRecordsError [LeafEq "company_id" (VInt 1); LeafEq "description" (VStr "PT9")]),
   Install.books).
Proof.
  apply (set_default_taxes_lookup_failure Install.registry (Install.model_of "account.tax")
           Install.company1 "ST1" "PT9" Install.books); [reflexivity|].
  right. exists 1%Z. split; vm_compute; reflexivity.
Defined.

(** X12: when both tax codes name exactly one tax of the company and the
    company has at most one settings record, [set_default_taxes] returns,
    and the company then has exactly one settings record, which carries the
    two tax identifiers found and the company's [company_id]. *)
Theorem set_default_taxes_sets_both registry taxes_model settings_model company
    sales_code purchase_code sales_tax_id purchase_tax_id cr :
  registry !! "account.tax" = Some taxes_model →
  registry !! "account.config.settings" = Some settings_model →
  get_exactly_one_id taxes_model
    [LeafEq "company_id" (VInt (id company)); LeafEq "description" (VStr sales_code)] cr =
    (Return sales_tax_id, cr) →
  get_exactly_one_id taxes_model
    [LeafEq "company_id" (VInt (id company)); LeafEq "description" (VStr purchase_code)] cr =
    (Return purchase_tax_id, cr) →
  length (search_ids (model_name settings_model) (scope_domain (Some company)) (tables cr)) ≤ 1 →
  ∃ cr' i r,
    set_default_taxes registry company sales_code purchase_code cr = (Return (), cr') ∧
    search_ids (model_name settings_model) (scope_domain (Some company)) (tables cr') = [i] ∧
    tables cr' !! (model_name settings_model, i) = Some r ∧
    r !! "default_sale_tax" = Some (VInt sales_tax_id) ∧
    r !! "default_purchase_tax" = Some (VInt purchase_tax_id) ∧
    r !! "company_id" = Some (VInt (id company)).
Proof.
  intros Htax Hset Hs Hp Hlen.
  rewrite set_default_taxes_run, Htax, Hs, Hp.
  destruct (set_settings_applies registry "account.config.settings" settings_model
              {[ "default_sale_tax" := VInt sales_tax_id;
                 "default_purchase_tax" := VInt purchase_tax_id ]}
              (Some company) cr) as (cr' & i & r & Hrun & Hsearch & Hr & Hfix & Hd & _);
    [by left|done|done|].
  exists cr', i, r. split; [done|]. split; [done|]. split; [done|].
  apply (scope_domain_holds (Some company)) in Hd.
  split; [|split; [|done]].
  - rewrite <- Hfix, dict_update_lookup. by simplify_map_eq.
  - rewrite <- Hfix, dict_update_lookup. by simplify_map_eq.
Qed.

Lemma set_default_taxes_sets_both_witness :
  ∃ cr' i r,
    set_default_taxes Install.registry Install.company1 "ST1" "PT1" Install.books =
      (Return (), cr') ∧
    search_ids "account.config.settings" (scope_domain (Some Install.company1))
      (tables cr') = [i] ∧
    tables cr' !! ("account.config.settings", i) = Some r ∧
    r !! "default_sale_tax" = Some (VInt 1) ∧
    r !! "default_purchase_tax" = Some (VInt 2) ∧
    r !! "company_id" = Some (VInt 1).
Proof.
  apply (set_default_taxes_sets_both Install.registry (Install.model_of "account.tax")
           Scenario.account_config_settings Install.company1 "ST1" "PT1" 1%Z 2%Z
           Install.books);
    try (vm_compute; reflexivity).
  vm_compute. lia.
Defined.

(** X13: [set_default_taxes] can be run again: with every model registered
    under its own name, a second identical call leaves the rows that the
    first one left. *)
Theorem set_default_taxes_twice registry company sales_code purchase_code cr :
  registry_named registry →
  let run := set_default_taxes registry company sales_code purchase_code in
  tables (exec run (exec run cr)) = tables (exec run cr).
Proof.
  intros Hnamed run. subst run. unfold exec at 2 3.
  destruct (set_default_taxes registry company sales_code purchase_code cr)
    as [[[]|e] cr1] eqn:Hrun; simpl.
  - destruct (set_default_taxes_return_inv _ _ _ _ _ _ Hrun)
      as (taxes_model & s & p & Htax & Hs & Hp & Hset).
    assert (∀ domain, search_ids (model_name taxes_model) domain (tables cr1) =
                      search_ids (model_name taxes_model) domain (tables cr)) as Hsame.
    { intros domain. revert Hset. rewrite set_settings_run.
      destruct (registry !! "account.config.settings") as [settings_model|] eqn:Hreg;
        [|done]. simpl.
      assert (model_name settings_model ≠ model_name taxes_model) as Hne.
      { rewrite (Hnamed _ _ Hreg), (Hnamed _ _ Htax). done. }
      destruct (search_ids (model_name settings_model) _ (tables cr)) as [|i [|j l]];
        [| |done]; intros [= <-]; simpl; apply search_ids_ext; intros i' r'.
      - rewrite lookup_insert_ne; [done|congruence].
      - rewrite lookup_alter_ne; [done|congruence]. }
    unfold exec. rewrite set_default_taxes_run, Htax.
    rewrite get_exactly_one_id_run in Hs, Hp.
    rewrite !get_exactly_one_id_run, !Hsame.
    injection Hs as Hs. injection Hp as Hp. rewrite Hs, Hp.
    assert (cr1 = exec (set_settings registry "account.config.settings"
                          {[ "default_sale_tax" := VInt s;
                             "default_purchase_tax" := VInt p ]}
                          (Some company)) cr) as ->.
    { unfold exec. by rewrite Hset. }
    apply set_settings_again. by left.
  - pose proof (set_default_taxes_raise_keeps _ _ _ _ _ _ _ Hrun) as ->.
    unfold exec. by rewrite Hrun.
Qed.

Lemma set_default_taxes_twice_witness :
  tables (exec (set_default_taxes Install.registry Install.company1 "ST1" "PT1")
            (exec (set_default_taxes Install.registry Install.company1 "ST1" "PT1")
               Install.books)) =
  tables (exec (set_default_taxes Install.registry Install.company1 "ST1" "PT1")
            Install.books).
Proof.
  apply (set_default_taxes_twice Install.registry Install.company1 "ST1" "PT1"
           Install.books).
  intros name model Hreg. unfold Install.registry in Hreg.
  repeat (apply lookup_insert_Some in Hreg as [[<- <-]|[_ Hreg]]; [reflexivity|]).
  apply lookup_singleton_Some in Hreg as [<- <-]. reflexivity.
Defined.

Section currencies.
Implicit Types (cr : Database) (company : Company).

Lemma enable_multi_currency_run registry company gain_account_code loss_account_code
    context cr :
  enable_multi_currency registry company gain_account_code loss_account_code context cr =
  match registry !! "account.account" with
  | None => (Failed (Raised (KeyError "account.account")), cr)
  | Some accounts_model =>
      match context with
      | None => (Failed AttributeError, cr)
      | Some _ =>
          match get_exactly_one_id accounts_model
                  [LeafEq "company_id" (VInt (id company));
                   LeafEq "code" (VStr gain_account_code)] cr with
          | (Raise e, _) => (Failed (Raised e), cr)
          | (Return gain_account_id, _) =>
              match get_exactly_one_id accounts_model
                      [LeafEq "company_id" (VInt (id company));
                       LeafEq "code" (VStr loss_account_code)] cr with
              | (Raise e, _) => (Failed (Raised e), cr)
              | (Return loss_account_id, _) =>
                  call (set_settings registry "account.config.settings"
                          {[ "group_multi_currency" := VBool true;
                             "income_currency_exchange_account_id" := VInt gain_account_id;
                             "expense_currency_exchange_account_id" := VInt loss_account_id ]}
                          (Some company)) cr
              end
          end
      end
  end.
Proof.
  unfold enable_multi_currency, registry_getitem.
  destruct (registry !! "account.account") as [accounts_model|]; [|done].
  unfold mbind at 1, Py_bind at 1, call at 1, mret at 1, M_ret at 1.
  destruct context as [d|]; [|done].
  unfold mbind at 1, Py_bind at 1, context_copy at 1, mret at 1, Py_ret at 1.
  unfold mbind at 1, Py_bind at 1, call at 1. rewrite !get_exactly_one_id_run.
  destruct (search_ids _ _ _) as [|g [|g' l]]; [done| |done].
  unfold mbind at 1, Py_bind at 1, context_copy at 1, mret at 1, Py_ret at 1.
  unfold mbind at 1, Py_bind at 1, call at 1. rewrite get_exactly_one_id_run.
  by destruct (search_ids _ _ _) as [|p [|p' l]].
Qed.
End currencies.

(** X14: [enable_multi_currency] needs a context: with the default
    [context=None] and the account model registered it raises
    [AttributeError] at the first [context.copy()], before any lookup, and
    changes nothing. *)
Theorem enable_multi_currency_without_context registry accounts_model company
    gain_account_code loss_account_code cr :
  registry !! "account.account" = Some accounts_model →
  enable_multi_currency registry company gain_account_code loss_account_code None cr =
  (Failed AttributeError, cr).
Proof. intros Hreg. by rewrite enable_multi_currency_run, Hreg. Qed.

Lemma enable_multi_currency_without_context_witness :
  enable_multi_currency Install.registry Install.company1 "4000" "5000" None
    Install.books = (Failed AttributeError, Install.books).
Proof.
  apply (enable_multi_currency_without_context Install.registry
           (Install.model_of "account.account")).
  reflexivity.
Defined.

(** X15: an account lookup that fails stops [enable_multi_currency]
    before any call on the settings: given a context, when the gain code, or
    else the loss code, does not name exactly one account of the company,
    the error of that lookup leaves [enable_multi_currency] and the
    database, rows and call log, is as it was.  The gain account is looked
    up first. *)
Theorem enable_multi_currency_lookup_failure registry accounts_model company
    gain_account_code loss_account_code context cr e :
  registry !! "account.account" = Some accounts_model →
  get_exactly_one_id accounts_model
    [LeafEq "company_id" (VInt (id company)); LeafEq "code" (VStr gain_account_code)] cr =
    (Raise e, cr) ∨
  (∃ gain_account_id,
     get_exactly_one_id accounts_model
       [LeafEq "company_id" (VInt (id company)); LeafEq "code" (VStr gain_account_code)] cr =
       (Return gain_account_id, cr) ∧
     get_exactly_one_id accounts_model
       [LeafEq "company_id" (VInt (id company)); LeafEq "code" (VStr loss_account_code)] cr =
       (Raise e, cr)) →
  enable_multi_currency registry company gain_account_code loss_account_code
    (Some context) cr = (Failed (Raised e), cr).
Proof.
  intros Hacc Hfail. rewrite enable_multi_currency_run, Hacc.
  destruct Hfail as [Hg|(g & Hg & Hl)].
  - by rewrite Hg.
  - by rewrite Hg, Hl.
Qed.

Lemma enable_multi_currency_lookup_failure_witness :
  enable_multi_currency Install.registry Install.company1 "4000" "6000" (Some ∅)
    Install.books =
  (Failed (Raised (NoRecordsError [LeafEq "company_id" (VInt 1);
                                   LeafEq "code" (VStr "6000")])),
   Install.books).
Proof.
  apply (enable_multi_currency_lookup_failure Install.registry
           (Install.model_of "account.account") Install.company1 "4000" "6000" ∅
           Install.books); [reflexivity|].
  right. exists 10%Z. split; vm_compute; reflexivity.
Defined.

(** X16: given a context, one gain account and one loss account of the
    company for the two codes, and at most one settings record of the
    company, [enable_multi_currency] returns, and the company then has
    exactly one settings record, with [group_multi_currency] set and the
    two accounts found as exchange accounts. *)
Theorem enable_multi_currency_sets_accounts registry accounts_model settings_model
    company gain_account_code loss_account_code context gain_account_id
    loss_account_id cr :
  registry !! "account.account" = Some accounts_model →
  registry !! "account.config.settings" = Some settings_model →
  get_exactly_one_id accounts_model
    [LeafEq "company_id" (VInt (id company)); LeafEq "code" (VStr gain_account_code)] cr =
    (Return gain_account_id, cr) →
  get_exactly_one_id accounts_model
    [LeafEq "company_id" (VInt (id company)); LeafEq "code" (VStr loss_account_code)] cr =
    (Return loss_account_id, cr) →
  length (search_ids (model_name settings_model) (scope_domain (Some company)) (tables cr)) ≤ 1 →
  ∃ cr' i r,
    enable_multi_currency registry company gain_account_code loss_account_code
      (Some context) cr = (Done (), cr') ∧
    search_ids (model_name settings_model) (scope_domain (Some company)) (tables cr') = [i] ∧
    tables cr' !! (model_name settings_model, i) = Some r ∧
    r !! "group_multi_currency" = Some (VBool true) ∧
    r !! "income_currency_exchange_account_id" = Some (VInt gain_account_id) ∧
    r !! "expense_currency_exchange_account_id" = Some (VInt loss_account_id) ∧
    r !! "company_id" = Some (VInt (id company)).
Proof.
  intros Hacc Hset Hg Hl Hlen.
  rewrite enable_multi_currency_run, Hacc, Hg, Hl. unfold call.
  destruct (set_settings_applies registry "account.config.settings" settings_model
              {[ "group_multi_currency" := VBool true;
                 "income_currency_exchange_account_id" := VInt gain_account_id;
                 "expense_currency_exchange_account_id" := VInt loss_account_id ]}
              (Some company) cr) as (cr' & i & r & Hrun & Hsearch & Hr & Hfix & Hd & _);
    [by left|done|done|].
  rewrite Hrun. exists cr', i, r. split; [done|]. split; [done|]. split; [done|].
  apply (scope_domain_holds (Some company)) in Hd.
  split; [|split; [|split; [|done]]].
  - rewrite <- Hfix, dict_update_lookup. by simplify_map_eq.
  - rewrite <- Hfix, dict_update_lookup. by simplify_map_eq.
  - rewrite <- Hfix, dict_update_lookup. by simplify_map_eq.
Qed.

Lemma enable_multi_currency_sets_accounts_witness :
  ∃ cr' i r,
    enable_multi_currency Install.registry Install.company1 "4000" "5000" (Some ∅)
      Install.books = (Done (), cr') ∧
    search_ids "account.config.settings" (scope_domain (Some Install.company1))
      (tables cr') = [i] ∧
    tables cr' !! ("account.config.settings", i) = Some r ∧
    r !! "group_multi_currency" = Some (VBool true) ∧
    r !! "income_currency_exchange_account_id" = Some (VInt 10) ∧
    r !! "expense_currency_exchange_account_id" = Some (VInt 11) ∧
    r !! "company_id" = Some (VInt 1).
Proof.
  apply (enable_multi_currency_sets_accounts Install.registry
           (Install.model_of "account.account") Scenario.account_config_settings
           Install.company1 "4000" "5000" ∅ 10%Z 11%Z Install.books);
    try (vm_compute; reflexivity).
  vm_compute. lia.
Defined.

(** ** More on consolidation accounts *)

(** X17: [create_consolidation_account] creates nothing unless it returns:
    when the Root/View account type is missing or not unique, or a model is
    not registered, it raises and the database is as it was. *)
Theorem create_consolidation_account_raise_unchanged registry company code name
    children cr e cr' :
  create_consolidation_account registry company code name children cr = (Raise e, cr') →
  cr' = cr.
Proof.
  unfold create_consolidation_account, registry_getitem.
  destruct (registry !! "account.account.type") as [account_type|]; [|by intros [= _ <-]].
  unfold mbind at 1, M_bind at 1, mret at 1, M_ret at 1.
  unfold mbind at 1, M_bind at 1. rewrite get_exactly_one_id_run.
  destruct (search_ids _ _ _) as [|view_id [|j l]]; [by intros [= _ <-]| |by intros [= _ <-]].
  destruct (registry !! "account.account") as [account|]; [|by intros [= _ <-]].
  unfold mbind, M_bind, mret, M_ret, create. simpl. intros [=].
Qed.

Lemma create_consolidation_account_raise_unchanged_witness :
  Scenario.configured = Scenario.configured.
Proof.
  symmetry.
  apply (create_consolidation_account_raise_unchanged Scenario.registry
           Scenario.company7 "C1" "Consolidated" [10; 20]%Z Scenario.configured
           (NoRecordsError [LeafEq "name" (VStr "Root/View")])).
  vm_compute. reflexivity.
Defined.

(** X18: the tuples that [create_consolidation_account] builds name the
    children and nothing else: a tuple is in the list exactly when it is
    [(4, child_id, False)] for one of the children, so the list links the
    same accounts as one tuple per child would. *)
Theorem child_consol_ids_members children v :
  v ∈ child_consol_ids children ↔
  ∃ child_id, child_id ∈ children ∧
              v = VTuple [VInt ADD_EXISTING_ID; VInt child_id; VBool false].
Proof.
  unfold child_consol_ids. rewrite list_elem_of_bind. split.
  - intros (child_id & Hin & Hc). exists child_id. split; [done|].
    apply list_elem_of_bind in Hin as (child & Hv & _).
    by apply list_elem_of_singleton in Hv.
  - intros (child_id & Hc & ->). exists child_id. split; [|done].
    apply list_elem_of_bind. exists child_id. split; [|done].
    by apply list_elem_of_singleton.
Qed.

(** X19: the list of tuples is the one-tuple-per-child list exactly when
    there is at most one child. *)
Theorem child_consol_ids_one_per_child_iff children :
  child_consol_ids children =
    map (λ child_id, VTuple [VInt ADD_EXISTING_ID; VInt child_id; VBool false]) children ↔
  length children ≤ 1.
Proof.
  split.
  - intros Heq. apply (f_equal length) in Heq.
    rewrite child_consol_ids_unfold, length_flat_map_replicate, length_map in Heq. nia.
  - destruct children as [|c [|c' l]]; simpl; [done|done|lia].
Qed.

(** X20: when the Root/View account type is unique and both models are
    registered, [create_consolidation_account] returns an identifier that
    was not in use and stores the new account under it, typed
    ['consolidation'] with the Root/View type as [user_type]; the row has no
    [company_id]: the [company] argument is not used. *)
Theorem create_consolidation_account_stores registry account_type account company
    code name children view_id cr :
  registry !! "account.account.type" = Some account_type →
  registry !! "account.account" = Some account →
  search account_type [LeafEq "name" (VStr "Root/View")] cr = (Return [view_id], cr) →
  ∃ new_id cr' data,
    create_consolidation_account registry company code name children cr =
      (Return new_id, cr') ∧
    tables cr !! (model_name account, new_id) = None ∧
    tables cr' = <[(model_name account, new_id) := data]> (tables cr) ∧
    data !! "code" = Some (VStr code) ∧
    data !! "name" = Some (VStr name) ∧
    data !! "type" = Some (VStr "consolidation") ∧
    data !! "user_type" = Some (VInt view_id) ∧
    data !! "company_id" = None.
Proof.
  intros Htype Hacc [= Hs].
  unfold create_consolidation_account, registry_getitem. rewrite Htype.
  unfold mbind at 1, M_bind at 1, mret at 1, M_ret at 1.
  unfold mbind at 1, M_bind at 1. rewrite get_exactly_one_id_run, Hs, Hacc.
  unfold mbind, M_bind, mret, M_ret, create. simpl.
  eexists _, _, _. split; [done|]. split; [apply next_id_fresh|]. simpl.
  split; [done|]. repeat split; by simplify_map_eq.
Qed.

Lemma create_consolidation_account_stores_witness :
  ∃ new_id cr' data,
    create_consolidation_account Install.registry Install.company1 "C1" "Consolidated"
      [10; 11]%Z Install.books = (Return new_id, cr') ∧
    tables Install.books !! ("account.account", new_id) = None ∧
    tables cr' = <[("account.account", new_id) := data]> (tables Install.books) ∧
    data !! "code" = Some (VStr "C1") ∧
    data !! "name" = Some (VStr "Consolidated") ∧
    data !! "type" = Some (VStr "consolidation") ∧
    data !! "user_type" = Some (VInt 5) ∧
    data !! "company_id" = None.
Proof.
  apply (create_consolidation_account_stores Install.registry
           (Install.model_of "account.account.type") (Install.model_of "account.account")
           Install.company1 "C1" "Consolidated" [10; 11]%Z 5%Z Install.books);
    vm_compute; reflexivity.
Defined.

(** ** The default sale pricelist *)

Section pricelist_properties.
Variable unlink : Model → list Id → M unit.

(** What is assumed of the host's [unlink]: it returns, and the rows it
    is given are gone from the model while every other row stays. *)
Hypothesis unlink_deletes : ∀ model ids cr,
  ∃ cr', unlink model ids cr = (Return (), cr') ∧
         tables cr' = without_rows (model_name model) ids (tables cr).

Implicit Types (cr : Database) (company : Company) (t : gmap (string * Id) Dict).

Lemma lookup_without_rows_in name ids t i :
  i ∈ ids → without_rows name ids t !! (name, i) = None.
Proof.
  induction ids as [|a ids IH]; simpl; intros Hin; [by apply elem_of_nil in Hin|].
  apply elem_of_cons in Hin as [->|Hin]; [apply lookup_delete_eq|].
  destruct (decide (a = i)) as [->|Hne]; [apply lookup_delete_eq|].
  rewrite lookup_delete_ne by congruence. by apply IH.
Qed.

Lemma lookup_without_rows_other name ids t k :
  (∀ i, i ∈ ids → k ≠ (name, i)) → without_rows name ids t !! k = t !! k.
Proof.
  induction ids as [|a ids IH]; simpl; intros Hk; [done|].
  rewrite lookup_delete_ne.
  - apply IH. intros i Hi. apply Hk. by right.
  - intros Heq. apply (Hk a); [by left|done].
Qed.

Lemma search_ids_without_matches name domain t :
  search_ids name domain (without_rows name (search_ids name domain t) t) = [].
Proof.
  apply search_ids_nil. intros i r Hr.
  destruct (domain_holds domain r) eqn:Hd; [|done]. exfalso.
  destruct (decide (i ∈ search_ids name domain t)) as [Hin|Hout].
  - by rewrite (lookup_without_rows_in _ _ _ _ Hin) in Hr.
  - rewrite lookup_without_rows_other in Hr.
    + apply Hout, elem_of_search_ids. eauto.
    + intros j Hj [= <-]. done.
Qed.

(** The rows right before the [create] of
    [set_default_customer_sale_pricelist]. *)
Lemma pricelist_cleared registry fields ir_property company pricelist field_id cr :
  registry !! "ir.model.fields" = Some fields →
  registry !! "ir.property" = Some ir_property →
  search_ids (model_name fields)
    [LeafEq "model" (VStr "res.partner"); LeafEq "name" (VStr "property_product_pricelist")]
    (tables cr) = [field_id] →
  let domain := [LeafEq "company_id" (VInt (id company));
                 LeafEq "fields_id" (VInt field_id);
                 LeafEq "res_id" (VBool false)] in
  let data : Dict :=
    {[ "company_id" := VInt (id company);
       "fields_id" := VInt field_id;
       "res_id" := VBool false;
       "type" := VStr "many2one";
       "value_reference" := VStr (makeref "product.pricelist" (Pricelist.id pricelist)) ]} in
  ∃ cr1,
    tables cr1 = without_rows (model_name ir_property)
                   (search_ids (model_name ir_property) domain (tables cr)) (tables cr) ∧
    set_default_customer_sale_pricelist unlink registry company pricelist cr =
    (Return (),
     {| tables := <[(model_name ir_property, next_id (model_name ir_property) (tables cr1)) := data]>
                    (tables cr1);
        log := log cr1 ++ [CCreate (model_name ir_property) data
                             (next_id (model_name ir_property) (tables cr1))] |}).
Proof.
  intros Hf Hp Hs domain data.
  unfold set_default_customer_sale_pricelist, get_field_id, registry_getitem.
  rewrite Hf. unfold mbind at 1, M_bind at 1.
  unfold mbind at 1, M_bind at 1, mret at 1, M_ret at 1.
  rewrite get_exactly_one_id_run, Hs, Hp.
  unfold mbind at 1, M_bind at 1, mret at 1, M_ret at 1.
  unfold mbind at 1, M_bind at 1, search at 1. fold domain.
  destruct (search_ids (model_name ir_property) domain (tables cr)) as [|i l] eqn:E.
  - exists cr. split; [done|].
    unfold mbind, M_bind, mret, M_ret, create. simpl. done.
  - destruct (unlink_deletes ir_property (i :: l) cr) as (cr1 & Hun & Ht).
    exists cr1. split; [done|].
    unfold mbind at 1, M_bind at 1. rewrite Hun.
    unfold mbind, M_bind, mret, M_ret, create. simpl. done.
Qed.

(** X21: [set_default_customer_sale_pricelist] replaces rather than adds:
    when the pricelist field of partners is found, the company ends with
    exactly one default-pricelist property, the new one, which refers to the
    given pricelist; every property that was not a default of this company
    for this field, and every row of another model, is still there. *)
Theorem set_default_customer_sale_pricelist_replaces registry fields ir_property
    company pricelist field_id cr :
  registry !! "ir.model.fields" = Some fields →
  registry !! "ir.property" = Some ir_property →
  search fields
    [LeafEq "model" (VStr "res.partner"); LeafEq "name" (VStr "property_product_pricelist")]
    cr = (Return [field_id], cr) →
  let domain := [LeafEq "company_id" (VInt (id company));
                 LeafEq "fields_id" (VInt field_id);
                 LeafEq "res_id" (VBool false)] in
  ∃ cr' new_id r,
    set_default_customer_sale_pricelist unlink registry company pricelist cr =
      (Return (), cr') ∧
    search_ids (model_name ir_property) domain (tables cr') = [new_id] ∧
    tables cr' !! (model_name ir_property, new_id) = Some r ∧
    r !! "value_reference" =
      Some (VStr (makeref "product.pricelist" (Pricelist.id pricelist))) ∧
    (∀ k row, tables cr !! k = Some row →
       ¬ (k.1 = model_name ir_property ∧ domain_holds domain row = true) →
       tables cr' !! k = Some row).
Proof.
  intros Hf Hp [= Hs] domain.
  destruct (pricelist_cleared registry fields ir_property company pricelist field_id cr
              Hf Hp Hs) as (cr1 & Ht1 & Hrun).
  fold domain in Ht1.
  eexists _, _, _. split; [exact Hrun|]. simpl.
  assert (search_ids (model_name ir_property) domain (tables cr1) = []) as Hnil.
  { rewrite Ht1. apply search_ids_without_matches. }
  split; [|split; [|split]].
  - apply search_ids_after_create; [done|].
    simpl. rewrite !andb_true_r, !andb_true_iff, !bool_decide_eq_true.
    repeat split; by simplify_map_eq.
  - apply lookup_insert_eq.
  - by simplify_map_eq.
  - intros [n i] row Hk Hnot.
    assert (tables cr1 !! (n, i) = Some row) as Hk1.
    { rewrite Ht1, lookup_without_rows_other; [done|].
      intros j Hj [= -> ->]. apply elem_of_search_ids in Hj as (row' & Hrow' & Hd).
      simpl in Hnot. rewrite Hk in Hrow'. injection Hrow' as <-. by apply Hnot. }
    rewrite lookup_insert_ne; [done|].
    intros [= <- <-]. by rewrite next_id_fresh in Hk1.
Qed.

End pricelist_properties.

Lemma unlink_rows_deletes model ids cr :
  ∃ cr', unlink_rows model ids cr = (Return (), cr') ∧
         tables cr' = without_rows (model_name model) ids (tables cr).
Proof. by eexists. Qed.

Lemma set_default_customer_sale_pricelist_replaces_witness :
  ∃ cr' new_id r,
    set_default_customer_sale_pricelist unlink_rows Install.registry Install.company1
      {| Pricelist.id := 9 |} Install.books = (Return (), cr') ∧
    search_ids "ir.property"
      [LeafEq "company_id" (VInt 1); LeafEq "fields_id" (VInt 77);
       LeafEq "res_id" (VBool false)] (tables cr') = [new_id] ∧
    tables cr' !! ("ir.property", new_id) = Some r ∧
    r !! "value_reference" = Some (VStr "product.pricelist,9") ∧
    (∀ k row, tables Install.books !! k = Some row →
       ¬ (k.1 = "ir.property" ∧
          domain_holds [LeafEq "company_id" (VInt 1); LeafEq "fields_id" (VInt 77);
                        LeafEq "res_id" (VBool false)] row = true) →
       tables cr' !! k = Some row).
Proof.
  apply (set_default_customer_sale_pricelist_replaces unlink_rows unlink_rows_deletes
           Install.registry (Install.model_of "ir.model.fields")
           (Install.model_of "ir.property") Install.company1 {| Pricelist.id := 9 |}
           77%Z Install.books);
    vm_compute; reflexivity.
Defined.

(** X22: a failure to find the pricelist field stops
    [set_default_customer_sale_pricelist] before it searches, unlinks or
    creates anything: the error of [get_field_id] leaves the function and
    the database is as it was; so does the [KeyError] for a registry without
    [ir.property].  This holds for any [unlink]. *)
Theorem set_default_customer_sale_pricelist_lookup_failure
    (unlink : Model → list Id → M unit) registry company pricelist cr :
  (∀ e, get_field_id registry "res.partner" "property_product_pricelist" cr =
          (Raise e, cr) →
        set_default_customer_sale_pricelist unlink registry company pricelist cr =
          (Raise e, cr)) ∧
  (∀ field_id, get_field_id registry "res.partner" "property_product_pricelist" cr =
                 (Return field_id, cr) →
               registry !! "ir.property" = None →
               set_default_customer_sale_pricelist unlink registry company pricelist cr =
                 (Raise (KeyError "ir.property"), cr)).
Proof.
  split.
  - intros e Hf. unfold set_default_customer_sale_pricelist.
    unfold mbind at 1, M_bind at 1. by rewrite Hf.
  - intros field_id Hf Hp. unfold set_default_customer_sale_pricelist.
    unfold mbind at 1, M_bind at 1. rewrite Hf.
    unfold registry_getitem. rewrite Hp. done.
Qed.

Lemma set_default_customer_sale_pricelist_lookup_failure_witness :
  set_default_customer_sale_pricelist unlink_rows Scenario.registry Scenario.company7
    {| Pricelist.id := 9 |} Scenario.configured =
  (Raise (KeyError "ir.model.fields"), Scenario.configured).
Proof.
  apply (set_default_customer_sale_pricelist_lookup_failure unlink_rows
           Scenario.registry Scenario.company7 {| Pricelist.id := 9 |}
           Scenario.configured).
  vm_compute. reflexivity.
Defined.

(** ** What the helpers can raise *)

(** X23: the lookups raise nothing but their own errors: [get_maybe_id]
    can only raise [TooManyRecordsError], and whatever
    [get_exactly_one_id] raises is a [WrongNumberOfRecordsError]; the
    [ids[0]] of [get_maybe_id] is never out of range.  Neither changes the
    database. *)
Theorem lookups_raise_wrong_number model domain cr e cr' :
  (get_maybe_id model domain cr = (Raise e, cr') →
   e = TooManyRecordsError domain ∧ cr' = cr) ∧
  (get_exactly_one_id model domain cr = (Raise e, cr') →
   is_WrongNumberOfRecordsError e = true ∧ cr' = cr).
Proof.
  rewrite get_maybe_id_run, get_exactly_one_id_run.
  destruct (search_ids _ _ _) as [|i [|j l]]; split; intros [= <- <-]; done.
Qed.

Lemma lookups_raise_wrong_number_witness :
  is_WrongNumberOfRecordsError
    (NoRecordsError [LeafEq "description" (VStr "ST9")]) = true ∧
  Scenario.fresh_install = Scenario.fresh_install.
Proof.
  apply (lookups_raise_wrong_number Scenario.account_tax
           [LeafEq "description" (VStr "ST9")] Scenario.fresh_install).
  vm_compute. reflexivity.
Defined.

(** X24: a settings model that is not registered stops [set_settings]
    at its first line: the registry's [KeyError] for that name leaves the
    function and the database is as it was.  Each wrapper asks for its own
    model: [set_account_settings] for [account.config.settings],
    [set_general_settings] for [base.config.settings],
    [set_purchasing_settings] for [purchase.config.settings],
    [set_sale_settings] for [sale.config.settings] and
    [set_warehouse_settings] for [stock.config.settings]. *)
Theorem settings_model_not_registered registry changes company cr :
  (∀ name, registry !! name = None →
     set_settings registry name changes company cr = (Raise (KeyError name), cr)) ∧
  (registry !! "account.config.settings" = None →
     set_account_settings registry changes company cr =
       (Raise (KeyError "account.config.settings"), cr)) ∧
  (registry !! "base.config.settings" = None →
     set_general_settings registry changes cr =
       (Raise (KeyError "base.config.settings"), cr)) ∧
  (registry !! "purchase.config.settings" = None →
     set_purchasing_settings registry changes cr =
       (Raise (KeyError "purchase.config.settings"), cr)) ∧
  (registry !! "sale.config.settings" = None →
     set_sale_settings registry changes cr =
       (Raise (KeyError "sale.config.settings"), cr)) ∧
  (registry !! "stock.config.settings" = None →
     set_warehouse_settings registry changes cr =
       (Raise (KeyError "stock.config.settings"), cr)).
Proof.
  assert (∀ name c, registry !! name = None →
            set_settings registry name changes c cr = (Raise (KeyError name), cr)) as Hkey.
  { intros name c Hreg. by rewrite set_settings_run, Hreg. }
  repeat split; intros; by apply Hkey.
Qed.

Lemma settings_model_not_registered_witness :
  set_sale_settings Scenario.registry Scenario.sale_tax_42 Scenario.configured =
  (Raise (KeyError "sale.config.settings"), Scenario.configured).
Proof.
  destruct (settings_model_not_registered Scenario.registry Scenario.sale_tax_42 None
              Scenario.configured) as (_ & _ & _ & _ & Hsale & _).
  apply Hsale. reflexivity.
Defined.
